(** * DatingMatchmaker: the compatibility engine of [dating-algorithm.py]

    A shallow embedding of the class [DatingMatchmaker] and the proofs of
    its specified properties.

    Numbers.  The program computes with IEEE 754 binary64 floats, its
    own and those of NumPy and SciPy.  They are the primitive floats of
    Rocq, which are binary64 with round-to-nearest-even: a literal such
    as [0.7] is the float nearest to the decimal, as in Python, sums,
    products, quotients and square roots round as the machine's do, and
    NaN and the infinities are values.  Answers, weights, coordinates and
    distance bounds are floats.

    Library code.  The accumulation order of Python's [sum], of
    [ndarray.sum] and of [np.dot] is not fixed by their documentation;
    the embedding accumulates from the left.  [x ** 2] is the rounded
    square and [x ** 0.5] the rounded square root.
    [scipy.spatial.distance.cosine] is the one of SciPy 1.12 and later:
    the weights are validated and normalised, the three products are
    [np.dot]s, and the distance is clipped to [[0, 2]].  A division by
    zero is an error between Python floats and NaN or an infinity when
    an operand is a NumPy float; [round] has no integer for NaN or an
    infinity.

    Containers.  A Python [dict] keeps insertion order and the program
    iterates over it, so a dict is an association list with [dict_set]
    updating in place or appending.  Keys (question indices, user ids)
    are integers.

    Failure.  Exceptions are the [Raise] outcomes of the [result] type;
    methods of the class are state transformers over the object. *)

From Stdlib Require Import String.
From Stdlib Require Import Floats Lia ZArith List Bool.
From Stdlib Require Import Permutation Sorted.
Import ListNotations.
#[local] Set Warnings "-inexact-float".

(** ** Exceptions and outcomes *)

Inductive exn : Type :=
| ValueError (msg : string)
| OverflowError (msg : string)
| ZeroDivisionError (msg : string)
| IndexError
| KeyError.

Inductive result (A : Type) : Type :=
| Ok (a : A)
| Raise (e : exn).
Arguments Ok {A} a.
Arguments Raise {A} e.

Definition bind {A B : Type} (c : result A) (k : A -> result B) : result B :=
  match c with
  | Ok a => k a
  | Raise e => Raise e
  end.

Notation "x <- c ;; k" := (bind c (fun x => k))
  (at level 61, c at next level, right associativity).

(** The two messages the class raises with, and those of the
    interpreter and the libraries. *)
Definition InvalidAnswerLength : exn :=
  ValueError "Expected 100 answers for all questions"%string.
Definition UserNotFound : exn :=
  ValueError "User not found in database"%string.
Definition NaNToInteger : exn :=
  ValueError "cannot convert float NaN to integer"%string.
Definition InfinityToInteger : exn :=
  OverflowError "cannot convert float infinity to integer"%string.
Definition ResultOutOfRange : exn :=
  OverflowError "(34, 'Numerical result out of range')"%string.
Definition NegativeWeights : exn :=
  ValueError "Input weights should be all non-negative"%string.
Definition FloatDivisionByZero : exn :=
  ZeroDivisionError "float division by zero"%string.
Definition WeightsSumToZero : exn :=
  ZeroDivisionError "Weights sum to zero, can't be normalized"%string.

(** ** Dictionaries in insertion order *)

Section Dict.
Context {V : Type}.

Definition dict : Type := list (Z * V).

Fixpoint dict_get (d : dict) (k : Z) : option V :=
  match d with
  | [] => None
  | (k', v) :: d' => if Z.eqb k k' then Some v else dict_get d' k
  end.

Definition dict_in (k : Z) (d : dict) : bool :=
  match dict_get d k with Some _ => true | None => false end.

(** [d[k] = v]: an existing key keeps its position. *)
Fixpoint dict_set (d : dict) (k : Z) (v : V) : dict :=
  match d with
  | [] => [(k, v)]
  | (k', v') :: d' =>
      if Z.eqb k k' then (k, v) :: d' else (k', v') :: dict_set d' k v
  end.

Definition dict_keys (d : dict) : list Z := map fst d.
Definition dict_values (d : dict) : list V := map snd d.

(** A Python dict never holds a key twice. *)
Definition dict_wf (d : dict) : Prop := NoDup (dict_keys d).
End Dict.
Arguments dict V : clear implicits.

(** ** Floats *)

(** [x > y] and [x < y] of Python and NumPy: false when an operand is
    NaN. *)
Definition fgt (x y : float) : bool := (y <? x)%float.
Definition flt (x y : float) : bool := (x <? y)%float.

(** Half-to-even rounding of [m * 2^e], [e < 0], to an integer. *)
Definition round_half_even (m : Z) (e : Z) : Z :=
  let d := Z.pow 2 (- e) in
  let q := Z.div m d in
  let r := Z.modulo m d in
  match Z.compare (2 * r) d with
  | Lt => q
  | Gt => (q + 1)%Z
  | Eq => if Z.even q then q else (q + 1)%Z
  end.

(** The integer nearest to a finite float, a tie going to the even
    one. *)
Definition nearest_integer (x : float) : Z :=
  match Prim2SF x with
  | S754_finite s m e =>
      let n := if (0 <=? e)%Z then (Z.pos m * Z.pow 2 e)%Z
               else round_half_even (Z.pos m) e in
      if s then (- n)%Z else n
  | _ => 0%Z
  end.

(** [round(x)]: NaN and the infinities have no integer. *)
Definition round (x : float) : result Z :=
  if is_nan x then Raise NaNToInteger
  else if is_infinity x then Raise InfinityToInteger
  else Ok (nearest_integer x).

(** [x ** 2] on a Python float: an overflow of a finite operand is an
    error. *)
Definition py_square (x : float) : result float :=
  if is_finite x && is_infinity (x * x)%float then Raise ResultOutOfRange
  else Ok (x * x)%float.

(** [min(a, b)] of Python: [b] when [b < a], else [a]. *)
Definition py_min (a b : float) : float := if flt b a then b else a.

(** [sum(xs)] of Python, from the integer 0. *)
Definition py_sum (xs : list float) : float :=
  fold_left PrimFloat.add xs 0%float.

(** ** The parts of NumPy and SciPy the class uses *)

(** [range(a, b)] for naturals [a <= b]. *)
Definition range (a b : nat) : list Z := map Z.of_nat (seq a (b - a)).

(** [a.sum()]. *)
Definition np_sum (xs : list float) : float :=
  fold_left PrimFloat.add xs 0%float.

(** Element-wise product of two arrays of one length. *)
Fixpoint np_multiply (u v : list float) : list float :=
  match u, v with
  | x :: u', y :: v' => (x * y)%float :: np_multiply u' v'
  | _, _ => []
  end.

(** Element-wise difference of two arrays of one length. *)
Fixpoint np_subtract (u v : list float) : list float :=
  match u, v with
  | x :: u', y :: v' => (x - y)%float :: np_subtract u' v'
  | _, _ => []
  end.

(** [np.dot] of two vectors. *)
Definition np_dot (u v : list float) : float := np_sum (np_multiply u v).

(** [np.clip(x, lo, hi)]: NaN stays NaN. *)
Definition np_clip (x lo hi : float) : float :=
  if is_nan x then x
  else if flt x lo then lo
  else if fgt x hi then hi
  else x.

(** [a[i]] on an array of length [n]: the position an integer index
    denotes; negative indices count from the end. *)
Definition np_position (n : nat) (i : Z) : option nat :=
  if (0 <=? i)%Z && (i <? Z.of_nat n)%Z then Some (Z.to_nat i)
  else if (- Z.of_nat n <=? i)%Z && (i <? 0)%Z
       then Some (Z.to_nat (Z.of_nat n + i))
       else None.

Definition np_get (a : list float) (i : Z) : result float :=
  match np_position (length a) i with
  | Some k =>
      match nth_error a k with
      | Some x => Ok x
      | None => Raise IndexError
      end
  | None => Raise IndexError
  end.

(** [a[idx]] for a list of integer indices. *)
Fixpoint np_take (a : list float) (idx : list Z) : result (list float) :=
  match idx with
  | [] => Ok []
  | i :: idx' =>
      x <- np_get a i ;;
      xs <- np_take a idx' ;;
      Ok (x :: xs)
  end.

(** [w / w.sum()]; a division by zero leaves NaN or an infinity. *)
Definition normalize (w : list float) : list float :=
  let s := np_sum w in map (fun x => (x / s)%float) w.

(** [scipy.spatial.distance.cosine(u, v, w)]: one minus the (weighted)
    cosine of the angle between [u] and [v].  A negative weight is
    refused; a zero norm makes the quotient 0/0, which is NaN. *)
Definition cosine (u v : list float) (w : option (list float))
    : result float :=
  w <- match w with
       | Some w =>
           if existsb (fun x => flt x 0) w then Raise NegativeWeights
           else Ok (Some (normalize w))
       | None => Ok None
       end ;;
  let vw := match w with Some w => np_multiply v w | None => v end in
  let uw := match w with Some w => np_multiply u w | None => u end in
  let uv := np_dot u vw in
  let uu := np_dot u uw in
  let vv := np_dot v vw in
  let dist := (1.0 - uv / PrimFloat.sqrt (uu * vv))%float in
  Ok (np_clip dist 0.0 2.0).

(** [np.average(a, weights=w)]. *)
Definition average (a w : list float) : result float :=
  let scl := np_sum w in
  if (scl =? 0.0)%float then Raise WeightsSumToZero
  else Ok (np_sum (np_multiply a w) / scl)%float.

(** [l[:n]]. *)
Definition slice_to {A : Type} (l : list A) (n : Z) : list A :=
  if (0 <=? n)%Z then firstn (Z.to_nat n) l
  else firstn (length l - Z.to_nat (- n)) l.

(** ** The data of the class *)

Inductive MatchType : Type := similarity | complementary | dealbreaker.

Definition MatchType_eqb (a b : MatchType) : bool :=
  match a, b with
  | similarity, similarity => true
  | complementary, complementary => true
  | dealbreaker, dealbreaker => true
  | _, _ => false
  end.

Record Question : Type := mkQuestion {
  weight : float;
  match_type : MatchType
}.

(** The preferences dict: the two keys the class reads, and the names
    of any other keys it holds. *)
Record Preferences : Type := mkPreferences {
  location : option (float * float);
  max_distance : option float;
  other_keys : list string
}.

Definition no_preferences : Preferences := mkPreferences None None [].

(** Truth value of the dict: false when it has no key. *)
Definition truthy (p : Preferences) : bool :=
  match location p, max_distance p, other_keys p with
  | None, None, [] => false
  | _, _, _ => true
  end.

Record User : Type := mkUser {
  answers : list float;
  preferences : Preferences
}.

(** The breakdown dict returned with a score; its three shapes. *)
Inductive Breakdown : Type :=
| Vetoed (dealbreakers : list Z)
| Mismatch (reason : string)
| Matched (overall_score similarity_score complementary_score : Z)
          (category_scores : list (string * Z)).

Definition matched (b : Breakdown) : bool :=
  match b with Matched _ _ _ _ => true | _ => false end.

Record DatingMatchmaker : Type := mkDatingMatchmaker {
  questions_config : dict Question;
  users : dict User
}.

(** ** State of the object and failure, threaded through the methods *)

Definition M (A : Type) : Type :=
  DatingMatchmaker -> result A * DatingMatchmaker.

Definition mret {A : Type} (a : A) : M A := fun self => (Ok a, self).

Definition mraise {A : Type} (e : exn) : M A := fun self => (Raise e, self).

Definition mbind {A B : Type} (c : M A) (k : A -> M B) : M B :=
  fun self =>
    match c self with
    | (Ok a, self') => k a self'
    | (Raise e, self') => (Raise e, self')
    end.

Notation "x <~ c ;; k" := (mbind c (fun x => k))
  (at level 61, c at next level, right associativity).

Definition get_self : M DatingMatchmaker := fun self => (Ok self, self).

Definition set_users (us : dict User) : M unit :=
  fun self => (Ok tt, mkDatingMatchmaker (questions_config self) us).

Definition lift_result {A : Type} (r : result A) : M A := fun self => (r, self).

(** ** The class *)

Definition _default_question_config : dict Question :=
  let config := [] in
  let config := fold_left (fun c i => dict_set c i (mkQuestion 5.0 similarity))
                          (range 0 20) config in
  let config := fold_left (fun c i => dict_set c i (mkQuestion 3.0 similarity))
                          (range 20 40) config in
  let config := fold_left (fun c i => dict_set c i (mkQuestion 2.5 similarity))
                          (range 40 60) config in
  let config := fold_left (fun c i => dict_set c i (mkQuestion 2.0 complementary))
                          (range 60 70) config in
  let config := fold_left (fun c i => dict_set c i (mkQuestion 1.5 similarity))
                          (range 70 90) config in
  let config := fold_left (fun c i => dict_set c i (mkQuestion 10.0 dealbreaker))
                          (range 90 100) config in
  config.

(** [questions_config or self._default_question_config()]: no argument
    and an empty dict both give the default. *)
Definition __init__ (questions_config : option (dict Question)) : DatingMatchmaker :=
  mkDatingMatchmaker
    (match questions_config with
     | Some (q :: c) => q :: c
     | _ => _default_question_config
     end)
    [].

Definition add_user (user_id : Z) (answers : list float)
    (preferences : option Preferences) : M unit :=
  self <~ get_self ;;
  if negb (Nat.eqb (length answers) 100) then mraise InvalidAnswerLength
  else
    set_users
      (dict_set (users self) user_id
         (mkUser answers
            (match preferences with
             | Some p => if truthy p then p else no_preferences
             | None => no_preferences
             end))).

(** The body of the loop of [_check_dealbreakers]: one question, the
    list so far (or the exception already raised). *)
Definition dealbreaker_step (user1 user2 : User) (acc : result (list Z))
    (item : Z * Question) : result (list Z) :=
  dealbreakers <- acc ;;
  let '(q_idx, config) := item in
  if MatchType_eqb (match_type config) dealbreaker then
    a <- np_get (answers user1) q_idx ;;
    b <- np_get (answers user2) q_idx ;;
    let difference := abs (a - b)%float in
    if fgt difference 0.7 then Ok (dealbreakers ++ [q_idx])
    else Ok dealbreakers
  else Ok dealbreakers.

Definition _check_dealbreakers (self : DatingMatchmaker) (user1 user2 : User)
    : result (list Z) :=
  fold_left (dealbreaker_step user1 user2) (questions_config self) (Ok []).

Definition _calculate_distance (loc1 loc2 : float * float) : result float :=
  dx <- py_square (fst loc1 - fst loc2)%float ;;
  dy <- py_square (snd loc1 - snd loc2)%float ;;
  Ok (PrimFloat.sqrt (dx + dy)%float).

(** [prefs.get('max_distance', float('inf'))]. *)
Definition bound_of (p : Preferences) : float :=
  match max_distance p with
  | Some m => m
  | None => infinity
  end.

Definition _check_preferences (self : DatingMatchmaker) (user1 user2 : User)
    : result bool :=
  if negb (truthy (preferences user1)) || negb (truthy (preferences user2))
  then Ok true
  else
    match location (preferences user1), location (preferences user2) with
    | Some loc1, Some loc2 =>
        let max_distance :=
          py_min (bound_of (preferences user1))
                 (bound_of (preferences user2)) in
        actual_distance <- _calculate_distance loc1 loc2 ;;
        if fgt actual_distance max_distance then Ok false else Ok true
    | _, _ => Ok true
    end.

(** The items of the configuration of one match type, in order. *)
Definition items_of (t : MatchType) (config : dict Question)
    : list (Z * Question) :=
  filter (fun item => MatchType_eqb (match_type (snd item)) t) config.

Definition _calculate_similarity (self : DatingMatchmaker) (user1 user2 : User)
    : result float :=
  let similarity_indices :=
    map fst (items_of similarity (questions_config self)) in
  match similarity_indices with
  | [] => Ok 1.0%float
  | _ :: _ =>
      u1_answers <- np_take (answers user1) similarity_indices ;;
      u2_answers <- np_take (answers user2) similarity_indices ;;
      let weights :=
        map weight (map snd (items_of similarity (questions_config self))) in
      let weights := normalize weights in
      d <- cosine u1_answers u2_answers (Some weights) ;;
      Ok (1 - d)%float
  end.

Definition _calculate_complementarity (self : DatingMatchmaker)
    (user1 user2 : User) : result float :=
  let complementary_indices :=
    map fst (items_of complementary (questions_config self)) in
  match complementary_indices with
  | [] => Ok 1.0%float
  | _ :: _ =>
      u1_answers <- np_take (answers user1) complementary_indices ;;
      u2_answers <- np_take (answers user2) complementary_indices ;;
      let differences := map abs (np_subtract u1_answers u2_answers) in
      let comp_scores :=
        map (fun d => (1 - abs (d - 0.5) * 2)%float) differences in
      let weights :=
        map weight (map snd (items_of complementary (questions_config self))) in
      let weights := normalize weights in
      average comp_scores weights
  end.

Definition categories : list (string * list Z) :=
  [ ("values"%string, range 0 20);
    ("lifestyle"%string, range 20 40);
    ("personality"%string, range 40 70);
    ("interests"%string, range 70 90) ].

Fixpoint category_loop (cats : list (string * list Z)) (user1 user2 : User)
    (category_scores : list (string * Z)) : result (list (string * Z)) :=
  match cats with
  | [] => Ok category_scores
  | (category, indices) :: rest =>
      u1_answers <- np_take (answers user1) indices ;;
      u2_answers <- np_take (answers user2) indices ;;
      d <- cosine u1_answers u2_answers None ;;
      let similarity := (1 - d)%float in
      score <- round (similarity * 100)%float ;;
      category_loop rest user1 user2 (category_scores ++ [(category, score)])
  end.

Definition _calculate_category_scores (self : DatingMatchmaker)
    (user1 user2 : User) : result (list (string * Z)) :=
  category_loop categories user1 user2 [].

(** [sum(config['weight'] for ... if config['match_type'] == t)]. *)
Definition weight_of (t : MatchType) (config : dict Question) : float :=
  py_sum (map weight (map snd (items_of t config))).

(** The quotient [... / total_weight]: the numerator is a Python float
    when neither kind of question exists (both scores are the literal
    [1.0]), and the division of one by zero is an error; otherwise it is
    a NumPy float, whose division by zero is NaN or an infinity. *)
Definition total_score_of (config : dict Question) (numerator : float)
    (total_weight : float) : result float :=
  match items_of similarity config, items_of complementary config with
  | [], [] =>
      if (total_weight =? 0.0)%float then Raise FloatDivisionByZero
      else Ok (numerator / total_weight)%float
  | _, _ => Ok (numerator / total_weight)%float
  end.

Definition calculate_compatibility (user1_id user2_id : Z)
    : M (Z * Breakdown) :=
  self <~ get_self ;;
  lift_result
    (if negb (dict_in user1_id (users self))
        || negb (dict_in user2_id (users self))
     then Raise UserNotFound
     else
       match dict_get (users self) user1_id,
             dict_get (users self) user2_id with
       | Some user1, Some user2 =>
           dealbreakers <- _check_dealbreakers self user1 user2 ;;
           match dealbreakers with
           | _ :: _ => Ok (0%Z, Vetoed dealbreakers)
           | [] =>
               passes <- _check_preferences self user1 user2 ;;
               if negb passes
               then Ok (0%Z, Mismatch "preference_mismatch")
               else
                 similarity_score <- _calculate_similarity self user1 user2 ;;
                 complementary_score <-
                   _calculate_complementarity self user1 user2 ;;
                 let total_weight :=
                   py_sum (map weight (dict_values (questions_config self))) in
                 total_score <-
                   total_score_of (questions_config self)
                     (weight_of similarity (questions_config self)
                      * similarity_score
                      + weight_of complementary (questions_config self)
                        * complementary_score)%float
                     total_weight ;;
                 percentage <- round (total_score * 100)%float ;;
                 sim_pct <- round (similarity_score * 100)%float ;;
                 comp_pct <- round (complementary_score * 100)%float ;;
                 category_scores <-
                   _calculate_category_scores self user1 user2 ;;
                 Ok (percentage,
                     Matched percentage sim_pct comp_pct category_scores)
           end
       | _, _ => Raise UserNotFound
       end).

Definition Match : Type := (Z * Z * Breakdown)%type.

(** [list.sort(key=lambda x: x[1], reverse=True)]: a stable sort,
    descending in the score; an entry goes before the first one whose
    score is not greater than its own. *)
Fixpoint insert_desc (x : Match) (l : list Match) : list Match :=
  match l with
  | [] => [x]
  | y :: l' =>
      if (snd (fst x) <? snd (fst y))%Z then y :: insert_desc x l'
      else x :: y :: l'
  end.

Definition sort_desc (l : list Match) : list Match :=
  fold_right insert_desc [] l.

Fixpoint find_matches_loop (user_id : Z) (ids : list Z)
    (match_scores : list Match) : M (list Match) :=
  match ids with
  | [] => mret match_scores
  | potential_match_id :: rest =>
      if Z.eqb potential_match_id user_id
      then find_matches_loop user_id rest match_scores
      else
        r <~ calculate_compatibility user_id potential_match_id ;;
        let '(score, breakdown) := r in
        if (score >? 0)%Z
        then find_matches_loop user_id rest
               (match_scores ++ [(potential_match_id, score, breakdown)])
        else find_matches_loop user_id rest match_scores
  end.

Definition find_matches (user_id : Z) (top_n : Z) : M (list Match) :=
  self <~ get_self ;;
  if negb (dict_in user_id (users self)) then mraise UserNotFound
  else
    match_scores <~ find_matches_loop user_id (dict_keys (users self)) [] ;;
    mret (slice_to (sort_desc match_scores) top_n).

Definition Matrix : Type := dict (dict (Z * Breakdown)).

(** [matrix[k1][k2] = v]. *)
Definition matrix_set (matrix : Matrix) (k1 k2 : Z) (v : Z * Breakdown)
    : result Matrix :=
  match dict_get matrix k1 with
  | Some row => Ok (dict_set matrix k1 (dict_set row k2 v))
  | None => Raise KeyError
  end.

Definition matrix_get (matrix : Matrix) (k1 k2 : Z) : option (Z * Breakdown) :=
  match dict_get matrix k1 with
  | Some row => dict_get row k2
  | None => None
  end.

Fixpoint batch_inner (user1_id : Z) (ids : list Z)
    (compatibility_matrix : Matrix) : M Matrix :=
  match ids with
  | [] => mret compatibility_matrix
  | user2_id :: rest =>
      if Z.eqb user1_id user2_id
      then batch_inner user1_id rest compatibility_matrix
      else
        match matrix_get compatibility_matrix user2_id user1_id with
        | Some v =>
            m <~ lift_result
                   (matrix_set compatibility_matrix user1_id user2_id v) ;;
            batch_inner user1_id rest m
        | None =>
            r <~ calculate_compatibility user1_id user2_id ;;
            m <~ lift_result
                   (matrix_set compatibility_matrix user1_id user2_id r) ;;
            batch_inner user1_id rest m
        end
  end.

Fixpoint batch_outer (ids : list Z) (compatibility_matrix : Matrix)
    : M Matrix :=
  match ids with
  | [] => mret compatibility_matrix
  | user1_id :: rest =>
      self <~ get_self ;;
      m <~ batch_inner user1_id (dict_keys (users self))
             (dict_set compatibility_matrix user1_id []) ;;
      batch_outer rest m
  end.

Definition batch_processing : M Matrix :=
  self <~ get_self ;;
  batch_outer (dict_keys (users self)) [].

(** ** The vocabulary of the properties *)

Definition registered (self : DatingMatchmaker) (user_id : Z) (u : User) : Prop :=
  dict_get (users self) user_id = Some u.

(** The index domain of the data model: every question index is a
    position of a 100-answer vector. *)
Definition indices_ok (config : dict Question) : Prop :=
  Forall (fun item => (0 <= fst item < 100)%Z) config.

(** [a[i]] for an index known to be a position of [a]. *)
Definition item_at (a : list float) (i : Z) : float :=
  nth (Z.to_nat i) a 0%float.

(** [abs(a[i] - b[i]) > 0.7], as the program computes it. *)
Definition far_apart (a b : list float) (i : Z) : bool :=
  fgt (abs (item_at a i - item_at b i)) 0.7.

(** The violated dealbreakers of a pair of answer vectors, in the order
    of the configuration: the dealbreaker questions on which the answers
    are more than 0.7 apart. *)
Definition is_violated (a b : list float) (item : Z * Question) : bool :=
  MatchType_eqb (match_type (snd item)) dealbreaker
  && far_apart a b (fst item).

Definition violated (config : dict Question) (a b : list float) : list Z :=
  map fst (filter (is_violated a b) config).

(** What [preferences or {}] stores. *)
Definition stored_preferences (preferences : option Preferences) : Preferences :=
  match preferences with
  | Some p => if truthy p then p else no_preferences
  | None => no_preferences
  end.

(** The invariant of the registry: no id twice, 100 answers each. *)
Definition registry_ok (self : DatingMatchmaker) : Prop :=
  dict_wf (users self)
  /\ Forall (fun entry => length (answers (snd entry)) = 100%nat) (users self).

(** The objects a program can hold: built by the constructor, then
    filled by successful registrations. *)
Inductive reachable : DatingMatchmaker -> Prop :=
| reachable_init (config : option (dict Question)) : reachable (__init__ config)
| reachable_add_user (self self' : DatingMatchmaker) (user_id : Z)
    (answers : list float) (preferences : option Preferences) :
    reachable self ->
    add_user user_id answers preferences self = (Ok tt, self') ->
    reachable self'.

(** The formula of the specification for the overall percentage, in its
    own order of operations:
    [round(100 * (Wsim * sim + Wcmp * comp) / (Wsim + Wcmp + Wdeal))]. *)
Definition spec_percentage (config : dict Question) (sim comp : float)
    : result Z :=
  let Wsim := weight_of similarity config in
  let Wcmp := weight_of complementary config in
  let Wdeal := weight_of dealbreaker config in
  round (100 * (Wsim * sim + Wcmp * comp) / (Wsim + Wcmp + Wdeal))%float.

(** A score that is not a number. *)
Definition is_nan_result (r : result float) : bool :=
  match r with
  | Ok x => is_nan x
  | Raise _ => false
  end.

(** The outcome of scoring a pair. *)
Definition compat (self : DatingMatchmaker) (x y : Z) : result (Z * Breakdown) :=
  fst (calculate_compatibility x y self).

Definition score (m : Match) : Z := snd (fst m).

(** The entries for a list of candidates, in their order: each
    candidate with its score and breakdown; the first failing pair fails
    the whole. *)
Fixpoint score_all (self : DatingMatchmaker) (user_id : Z) (ids : list Z)
    : result (list Match) :=
  match ids with
  | [] => Ok []
  | k :: rest =>
      r <- compat self user_id k ;;
      ms <- score_all self user_id rest ;;
      Ok ((k, fst r, snd r) :: ms)
  end.

(** The other registered users, in registration order. *)
Definition others (self : DatingMatchmaker) (user_id : Z) : list Z :=
  filter (fun k => negb (Z.eqb k user_id)) (dict_keys (users self)).

Definition positive (m : Match) : bool := (score m >? 0)%Z.

(** Descending order of the scores. *)
Definition desc (a b : Match) : Prop := (score b <= score a)%Z.

(** The failures of the libraries and of the interpreter's arithmetic. *)
Definition library_failure (e : exn) : Prop :=
  e = IndexError \/ e = ResultOutOfRange \/ e = NegativeWeights
  \/ e = WeightsSumToZero \/ e = FloatDivisionByZero
  \/ e = NaNToInteger \/ e = InfinityToInteger.

(** A float that is not NaN. *)
Definition number (x : float) : Prop := is_nan x = false.

(** The comparison of two floats; none when one is NaN. *)
Definition cmp (x y : float) : option comparison :=
  SFcompare (Prim2SF x) (Prim2SF y).

(** The bound a user states, if any, is a number. *)
Definition bound_is_number (p : Preferences) : Prop :=
  match max_distance p with
  | Some m => number m
  | None => True
  end.

(** The second bound is absent, or both are stated and the first is at
    most the second. *)
Definition bound_le (m m' : option float) : Prop :=
  match m, m' with
  | _, None => True
  | Some x, Some y => (x <=? y)%float = true
  | None, Some _ => False
  end.

(** The same preferences with another bound. *)
Definition with_max_distance (u : User) (m : option float) : User :=
  mkUser (answers u)
         (mkPreferences (location (preferences u)) m
                        (other_keys (preferences u))).

(** The object after a registration. *)
Definition register (self : DatingMatchmaker) (user_id : Z) (a : list float)
    (p : option Preferences) : DatingMatchmaker :=
  snd (add_user user_id a p self).

(** ** The vocabulary of the batch matrix *)

(** The position of the first occurrence of a key. *)
Fixpoint index_of (k : Z) (l : list Z) : nat :=
  match l with
  | [] => 0%nat
  | k' :: l' => if Z.eqb k k' then 0%nat else S (index_of k l')
  end.

(** The outcome of a pair with the user registered first as first
    argument. *)
Definition in_order (self : DatingMatchmaker) (a b : Z)
    : result (Z * Breakdown) :=
  if (index_of a (dict_keys (users self))
      <=? index_of b (dict_keys (users self)))%nat
  then compat self a b
  else compat self b a.

(** A row of the matrix of user [a] that is complete for the ids of
    [done]: it holds the outcome of every pair of [a] and [b], [b] in
    [done] and other than [a], and nothing else. *)
Definition row_ok (self : DatingMatchmaker) (a : Z) (row : dict (Z * Breakdown))
    (done : list Z) : Prop :=
  (forall b, In b done -> b <> a ->
     exists v, dict_get row b = Some v /\ in_order self a b = Ok v)
  /\ (forall b v, dict_get row b = Some v -> In b done /\ b <> a).

(** The rows of the users of [P] are complete for all registered ids. *)
Definition rows_ok (self : DatingMatchmaker) (m : Matrix) (P : list Z) : Prop :=
  forall a, In a P ->
    exists row, dict_get m a = Some row
                /\ row_ok self a row (dict_keys (users self)).

(** The matrix has rows for users of [P] only. *)
Definition rows_only (m : Matrix) (P : list Z) : Prop :=
  forall k, dict_get m k <> None -> In k P.

(** ** Concrete registries *)

Definition plain (a : list float) : User := mkUser a no_preferences.

Definition ones : list float := repeat 1%float 100.
Definition zeros : list float := repeat 0%float 100.
Definition halves : list float := repeat 0.5%float 100.
Definition tiny : list float := repeat 1e-200%float 100.

Definition two_alike : DatingMatchmaker :=
  register (register (__init__ None) 1 ones None) 2 ones None.

Definition three_alike : DatingMatchmaker := register two_alike 3 ones None.

Definition two_zero : DatingMatchmaker :=
  register (register (__init__ None) 1 zeros None) 2 zeros None.

Definition two_tiny : DatingMatchmaker :=
  register (register (__init__ None) 1 tiny None) 2 tiny None.

Definition zero_half : DatingMatchmaker :=
  register (register (__init__ None) 1 zeros None) 2 halves None.

(** A custom configuration of one question. *)
Definition one_question_config : dict Question :=
  [(0%Z, mkQuestion 1 similarity)].

Definition opposite : DatingMatchmaker :=
  register (register (__init__ (Some one_question_config)) 1 ones None)
           2 (map PrimFloat.opp ones) None.

(** Two similarity questions and one dealbreaker; the two users differ
    on the first question only. *)
Definition three_question_config : dict Question :=
  [(0%Z, mkQuestion 20 similarity); (1%Z, mkQuestion 7 similarity);
   (2%Z, mkQuestion 173 dealbreaker)].

Definition low_first : list float := 0.1%float :: 0%float :: repeat 1%float 98.
Definition high_first : list float := 0.3%float :: 0%float :: repeat 1%float 98.

Definition uneven : DatingMatchmaker :=
  register (register (__init__ (Some three_question_config)) 1 low_first None)
           2 high_first None.

(** One similarity question of weight 109, one dealbreaker of weight
    91. *)
Definition two_question_config : dict Question :=
  [(0%Z, mkQuestion 109 similarity); (1%Z, mkQuestion 91 dealbreaker)].

Definition tied : DatingMatchmaker :=
  register (register (__init__ (Some two_question_config)) 1 ones None)
           2 ones None.

Definition near : Preferences := mkPreferences (Some (0, 0)%float) (Some 1%float) [].
Definition far : Preferences := mkPreferences (Some (3, 4)%float) None [].

Definition distant : DatingMatchmaker :=
  register (register (__init__ None) 1 ones (Some near)) 2 ones (Some far).

Definition one_zero : DatingMatchmaker :=
  register (register (__init__ None) 1 ones None) 2 zeros None.

(** The category scores of two users who agree in every category. *)
Definition all_hundred : list (string * Z) :=
  [("values"%string, 100%Z); ("lifestyle"%string, 100%Z);
   ("personality"%string, 100%Z); ("interests"%string, 100%Z)].

(** * Proofs *)

(** ** Facts of binary64 arithmetic *)

Lemma nan_spec (x : float) : is_nan x = true <-> Prim2SF x = S754_nan.
Proof.
  unfold is_nan. rewrite FloatAxioms.eqb_spec. unfold SFeqb.
  destruct (Prim2SF x) as [s|s| |s m e]; simpl.
  - split; discriminate.
  - destruct s; split; discriminate.
  - split; reflexivity.
  - destruct s; rewrite Z.compare_refl, Pos.compare_cont_refl;
      split; discriminate.
Qed.

(** The rounding of a result decides its magnitude; the sign is put on
    last. *)
Lemma binary_round_aux_abs (s s' : bool) (m e : Z) (l : SpecFloat.location) :
  SFabs (binary_round_aux prec emax s m e l)
  = SFabs (binary_round_aux prec emax s' m e l).
Proof.
  unfold binary_round_aux.
  destruct (shr_fexp prec emax m e l) as [mrs e1].
  destruct (shr_fexp prec emax _ e1 loc_Exact) as [mrs' e2].
  destruct (shr_m mrs'); try reflexivity.
  destruct (e2 <=? emax - prec)%Z; reflexivity.
Qed.

Lemma binary_normalize_abs (m e : Z) :
  SFabs (binary_normalize prec emax (- m) e false)
  = SFabs (binary_normalize prec emax m e false).
Proof.
  destruct m as [|p|p]; cbn [Z.opp binary_normalize]; try reflexivity;
    unfold binary_round;
    destruct (shl_align p e _) as [mz ez]; apply binary_round_aux_abs.
Qed.

Lemma SFsub_abs (x y : spec_float) :
  SFabs (SF64sub x y) = SFabs (SF64sub y x).
Proof.
  unfold SF64sub, SFsub.
  destruct x as [sx|sx| |sx mx ex], y as [sy|sy| |sy my ey];
    try reflexivity; try (destruct sx, sy; reflexivity);
    try (destruct sx; reflexivity); try (destruct sy; reflexivity).
  cbv zeta. rewrite (Z.min_comm ey ex).
  rewrite <- binary_normalize_abs. f_equal. f_equal. lia.
Qed.

(** [|a - b|] is [|b - a|], bit for bit. *)
Lemma abs_sub_swap (a b : float) : abs (a - b) = abs (b - a).
Proof.
  apply Prim2SF_inj. rewrite !abs_spec, !sub_spec. apply SFsub_abs.
Qed.

Lemma abs_abs (x : float) : abs (abs x) = abs x.
Proof.
  apply Prim2SF_inj. rewrite !abs_spec.
  destruct (Prim2SF x); reflexivity.
Qed.

Lemma mul_self_abs (x : float) : (x * x = abs x * abs x)%float.
Proof.
  apply Prim2SF_inj. rewrite !mul_spec, abs_spec.
  destruct (Prim2SF x) as [s|s| |s m e]; try reflexivity;
    destruct s; reflexivity.
Qed.

Lemma is_nan_abs (x : float) : is_nan (abs x) = is_nan x.
Proof.
  destruct (is_nan x) eqn:E.
  - apply nan_spec. rewrite abs_spec. apply nan_spec in E. now rewrite E.
  - destruct (is_nan (abs x)) eqn:E'; [|reflexivity].
    apply nan_spec in E'. rewrite abs_spec in E'.
    assert (Prim2SF x = S754_nan)
      by (destruct (Prim2SF x); try discriminate; reflexivity).
    apply nan_spec in H. congruence.
Qed.

Lemma is_infinity_abs (x : float) : is_infinity (abs x) = is_infinity x.
Proof. unfold is_infinity. now rewrite abs_abs. Qed.

Lemma is_finite_abs (x : float) : is_finite (abs x) = is_finite x.
Proof. unfold is_finite. now rewrite is_nan_abs, is_infinity_abs. Qed.

(** Products commute. *)
Lemma mul_comm (x y : float) : (x * y = y * x)%float.
Proof.
  apply Prim2SF_inj. rewrite !mul_spec. unfold SF64mul, SFmul.
  destruct (Prim2SF x) as [sx|sx| |sx mx ex],
           (Prim2SF y) as [sy|sy| |sy my ey];
    try reflexivity; try (now rewrite xorb_comm).
  now rewrite xorb_comm, Pos.mul_comm, Z.add_comm.
Qed.

(** *** The order of the floats *)

Lemma ltb_cmp (x y : float) : (x <? y)%float = true <-> cmp x y = Some Lt.
Proof.
  rewrite ltb_spec. unfold SFltb, cmp.
  destruct (SFcompare _ _) as [[| |]|]; split; congruence.
Qed.

Lemma leb_cmp (x y : float) :
  (x <=? y)%float = true <-> cmp x y = Some Lt \/ cmp x y = Some Eq.
Proof.
  rewrite leb_spec. unfold SFleb, cmp.
  destruct (SFcompare _ _) as [[| |]|]; split;
    try (intros [H|H]; congruence); try (intros H; congruence); auto.
Qed.

Lemma cmp_numbers (x y : float) :
  number x -> number y -> cmp x y <> None.
Proof.
  unfold number, cmp. intros Hx Hy.
  assert (Prim2SF x <> S754_nan)
    by (intros E; apply nan_spec in E; congruence).
  assert (Prim2SF y <> S754_nan)
    by (intros E; apply nan_spec in E; congruence).
  destruct (Prim2SF x) as [sx|sx| |sx mx ex],
           (Prim2SF y) as [sy|sy| |sy my ey];
    simpl; congruence.
Qed.

Lemma SFcompare_swap (x y : spec_float) :
  SFcompare y x = option_map CompOpp (SFcompare x y).
Proof.
  destruct x as [sx|sx| |sx mx ex], y as [sy|sy| |sy my ey];
    try reflexivity; try (destruct sx, sy; reflexivity);
    try (destruct sx; reflexivity); try (destruct sy; reflexivity).
  simpl. change (Pos.compare_cont Eq my mx) with (Pos.compare my mx).
  change (Pos.compare_cont Eq mx my) with (Pos.compare mx my).
  rewrite (Z.compare_antisym ex ey), (Pos.compare_antisym mx my).
  destruct sx, sy; try reflexivity;
    destruct (ex ?= ey)%Z; simpl; try reflexivity;
    destruct (mx ?= my)%positive; reflexivity.
Qed.

Lemma cmp_swap (x y : float) : cmp y x = option_map CompOpp (cmp x y).
Proof. apply SFcompare_swap. Qed.

(** [x <= y < z] gives [x < z]. *)
Lemma SFcompare_le_lt (x y z : spec_float) :
  SFcompare x y = Some Lt \/ SFcompare x y = Some Eq ->
  SFcompare y z = Some Lt -> SFcompare x z = Some Lt.
Proof.
  destruct x as [sx|sx| |sx mx ex], y as [sy|sy| |sy my ey],
           z as [sz|sz| |sz mz ez]; simpl;
    intros [H1|H1] H2; try discriminate; try reflexivity;
    repeat match goal with s : bool |- _ => destruct s end;
    try discriminate; try reflexivity;
    change (Pos.compare_cont Eq) with Pos.compare in *;
    repeat match goal with
           | H : context [(?a ?= ?b)%Z] |- _ =>
               destruct (Z.compare_spec a b); try discriminate
           | H : context [(?a ?= ?b)%positive] |- _ =>
               destruct (Pos.compare_spec a b); try discriminate
           end;
    repeat match goal with
           | |- context [(?a ?= ?b)%Z] =>
               destruct (Z.compare_spec a b); try lia
           | |- context [(?a ?= ?b)%positive] =>
               destruct (Pos.compare_spec a b); try lia
           end;
    try reflexivity; try discriminate; try lia.
Qed.

Lemma cmp_le_lt (x y z : float) :
  cmp x y = Some Lt \/ cmp x y = Some Eq ->
  cmp y z = Some Lt -> cmp x z = Some Lt.
Proof. apply SFcompare_le_lt. Qed.

(** Nothing is above the infinity. *)
Lemma ltb_infinity (x : float) : (infinity <? x)%float = false.
Proof.
  rewrite ltb_spec. unfold SFltb.
  change (Prim2SF infinity) with (S754_infinity false).
  destruct (Prim2SF x) as [s|s| |s m e]; try reflexivity;
    destruct s; reflexivity.
Qed.

Lemma number_infinity : number infinity.
Proof. reflexivity. Qed.

(** ** Outcomes of indexing *)

Lemma np_get_raise (a : list float) (i : Z) (e : exn) :
  np_get a i = Raise e -> e = IndexError.
Proof.
  unfold np_get.
  destruct (np_position _ i) as [k|]; [destruct (nth_error a k)|];
    congruence.
Qed.

Lemma np_take_raise (a : list float) (idx : list Z) (e : exn) :
  np_take a idx = Raise e -> e = IndexError.
Proof.
  induction idx as [|i idx IH]; simpl; [discriminate|].
  destruct (np_get a i) eqn:Hg; simpl.
  - destruct (np_take a idx); simpl; [discriminate|].
    intros H; inversion H; subst; auto.
  - intros H; inversion H; subst. eapply np_get_raise; eauto.
Qed.

Lemma MatchType_eqb_eq (a b : MatchType) : MatchType_eqb a b = true <-> a = b.
Proof. destruct a, b; simpl; split; congruence. Qed.

Lemma np_get_ok (a : list float) (i : Z) :
  (0 <= i < Z.of_nat (length a))%Z -> np_get a i = Ok (item_at a i).
Proof.
  intros Hi. unfold np_get, np_position, item_at.
  replace ((0 <=? i)%Z && (i <? Z.of_nat (length a))%Z) with true
    by (symmetry; apply andb_true_iff; split;
        [apply Z.leb_le|apply Z.ltb_lt]; lia).
  rewrite (nth_error_nth' a 0%float) by lia. reflexivity.
Qed.

Lemma np_take_ok (a : list float) (idx : list Z) :
  Forall (fun i => (0 <= i < Z.of_nat (length a))%Z) idx ->
  np_take a idx = Ok (map (item_at a) idx).
Proof.
  induction 1 as [|i idx Hi _ IH]; simpl; [reflexivity|].
  rewrite np_get_ok by assumption. rewrite IH. reflexivity.
Qed.

(** ** The read-only methods *)

Lemma calculate_compatibility_state (x y : Z) (self : DatingMatchmaker) :
  snd (calculate_compatibility x y self) = self.
Proof. reflexivity. Qed.

(** ** The dealbreaker check *)

Section Dealbreakers.
Variable self : DatingMatchmaker.
Variables user1 user2 : User.
Hypothesis Hlen1 : length (answers user1) = 100%nat.
Hypothesis Hlen2 : length (answers user2) = 100%nat.

Lemma check_dealbreakers_loop (config : dict Question) (acc : list Z) :
  indices_ok config ->
  fold_left (dealbreaker_step user1 user2) config (Ok acc)
  = Ok (acc ++ violated config (answers user1) (answers user2)).
Proof.
  intros Hok; revert acc.
  induction Hok as [|[q c] config Hq _ IH]; intros acc; simpl.
  - now rewrite app_nil_r.
  - unfold violated, is_violated at 1; cbn [filter fst snd].
    destruct (MatchType_eqb (match_type c) dealbreaker); cbn [andb].
    + simpl in Hq.
      rewrite !np_get_ok by (rewrite ?Hlen1, ?Hlen2; lia). cbn [bind].
      unfold far_apart.
      destruct (fgt _ 0.7); rewrite IH; [|reflexivity].
      unfold violated. cbn [map fst]. now rewrite <- app_assoc.
    + apply IH.
Qed.

Lemma _check_dealbreakers_ok :
  indices_ok (questions_config self) ->
  _check_dealbreakers self user1 user2
  = Ok (violated (questions_config self) (answers user1) (answers user2)).
Proof.
  intros Hok. unfold _check_dealbreakers.
  now rewrite check_dealbreakers_loop.
Qed.
End Dealbreakers.

Lemma violated_in (config : dict Question) (a b : list float) (i : Z) :
  In i (violated config a b) <->
  exists q, In (i, q) config /\ match_type q = dealbreaker
            /\ far_apart a b i = true.
Proof.
  unfold violated. rewrite in_map_iff. split.
  - intros [[j q] [Hj Hin]]. simpl in Hj; subst j.
    apply filter_In in Hin. destruct Hin as [Hin Hv].
    unfold is_violated in Hv; cbn [fst snd] in Hv.
    apply andb_true_iff in Hv. destruct Hv as [Ht Hd].
    exists q. split; [assumption|]. split; [now apply MatchType_eqb_eq|].
    exact Hd.
  - intros [q [Hin [Ht Hd]]]. exists (i, q). split; [reflexivity|].
    apply filter_In. split; [assumption|].
    unfold is_violated; cbn [fst snd].
    apply andb_true_iff. split; [now apply MatchType_eqb_eq|exact Hd].
Qed.

(** The violated list reads only the answers to dealbreaker questions. *)
Lemma violated_ext (config : dict Question) (a b a' b' : list float) :
  (forall i q, In (i, q) config -> match_type q = dealbreaker ->
     item_at a' i = item_at a i /\ item_at b' i = item_at b i) ->
  violated config a' b' = violated config a b.
Proof.
  intros H. unfold violated. f_equal. apply filter_ext_in.
  intros [i q] Hin. unfold is_violated, far_apart; cbn [fst snd].
  destruct (MatchType_eqb (match_type q) dealbreaker) eqn:Ht; [|reflexivity].
  apply MatchType_eqb_eq in Ht.
  destruct (H i q Hin Ht) as [-> ->]. reflexivity.
Qed.

(** C2.  Dealbreaker veto: for registered users [x], [y] (100 answers
    each, question indices in the index domain), if some dealbreaker
    question has [|a[i] - b[i]| > 0.7], the difference, its absolute
    value and the comparison being those of binary64 as the program
    computes them, then [calculate_compatibility] returns score 0 and the
    breakdown [matched = False] with the ordered list of all violated
    dealbreaker indices; that list is not empty and depends on nothing
    but the answers to the dealbreaker questions, so similarity,
    complementarity, preferences and categories have no influence. *)
Theorem dealbreaker_veto (self : DatingMatchmaker) (x y : Z) (u1 u2 : User) :
  registered self x u1 -> registered self y u2 ->
  length (answers u1) = 100%nat -> length (answers u2) = 100%nat ->
  indices_ok (questions_config self) ->
  (exists i q, In (i, q) (questions_config self)
               /\ match_type q = dealbreaker
               /\ fgt (abs (item_at (answers u1) i - item_at (answers u2) i))
                      0.7 = true) ->
  let V := violated (questions_config self) (answers u1) (answers u2) in
  calculate_compatibility x y self = (Ok (0%Z, Vetoed V), self)
  /\ matched (Vetoed V) = false
  /\ V <> []
  /\ (forall i, In i V <->
        exists q, In (i, q) (questions_config self)
                  /\ match_type q = dealbreaker
                  /\ fgt (abs (item_at (answers u1) i
                               - item_at (answers u2) i)) 0.7 = true)
  /\ (forall a' b',
        (forall i q, In (i, q) (questions_config self) ->
           match_type q = dealbreaker ->
           item_at a' i = item_at (answers u1) i
           /\ item_at b' i = item_at (answers u2) i) ->
        violated (questions_config self) a' b' = V).
Proof.
  intros Hx Hy Hl1 Hl2 Hok [i [q Hviol]] V.
  assert (HV : V <> []).
  { intros HV. assert (Hin : In i V) by (apply violated_in; eauto).
    rewrite HV in Hin. exact Hin. }
  split; [|split; [reflexivity|split; [exact HV|split]]].
  - unfold calculate_compatibility, mbind, get_self, lift_result, dict_in.
    unfold registered in Hx, Hy. rewrite Hx, Hy. cbn [negb orb].
    rewrite (_check_dealbreakers_ok self u1 u2 Hl1 Hl2 Hok). cbn [bind].
    fold V. destruct V; [contradiction|reflexivity].
  - intros j. apply violated_in.
  - intros a' b' H. now apply violated_ext.
Qed.

(** ** Dictionary laws *)

Section DictLaws.
Context {V : Type}.
Implicit Types (d : dict V) (k : Z) (v : V).

Lemma dict_get_set_eq d k v : dict_get (dict_set d k v) k = Some v.
Proof.
  induction d as [|[k' v'] d IH]; simpl.
  - now rewrite Z.eqb_refl.
  - destruct (Z.eqb k k') eqn:E; simpl.
    + now rewrite Z.eqb_refl.
    + now rewrite E.
Qed.

Lemma dict_get_set_neq d k k' v :
  k' <> k -> dict_get (dict_set d k v) k' = dict_get d k'.
Proof.
  intros Hne. induction d as [|[k0 v0] d IH]; simpl.
  - destruct (Z.eqb_spec k' k); [contradiction|reflexivity].
  - destruct (Z.eqb_spec k k0) as [->|Hk]; simpl.
    + destruct (Z.eqb_spec k' k0); [contradiction|reflexivity].
    + destruct (Z.eqb k' k0); [reflexivity|exact IH].
Qed.

Lemma dict_get_in d k : dict_get d k <> None <-> In k (dict_keys d).
Proof.
  induction d as [|[k' v'] d IH]; simpl.
  - split; [congruence|tauto].
  - destruct (Z.eqb_spec k k') as [->|Hk].
    + split; [auto|congruence].
    + rewrite IH. split; [auto|intros [H|H]; [congruence|exact H]].
Qed.

Lemma dict_in_true d k : dict_in k d = true <-> In k (dict_keys d).
Proof.
  rewrite <- dict_get_in. unfold dict_in.
  destruct (dict_get d k); split; congruence.
Qed.

(** An assignment keeps the order of the keys; a new key goes last. *)
Lemma dict_keys_set d k v :
  dict_keys (dict_set d k v)
  = if dict_in k d then dict_keys d else dict_keys d ++ [k].
Proof.
  unfold dict_in. induction d as [|[k' v'] d IH]; simpl; [reflexivity|].
  destruct (Z.eqb_spec k k') as [->|Hk]; simpl; [reflexivity|].
  rewrite IH. destruct (dict_get d k); reflexivity.
Qed.

Lemma dict_wf_set d k v : dict_wf d -> dict_wf (dict_set d k v).
Proof.
  unfold dict_wf. intros Hwf. rewrite dict_keys_set.
  destruct (dict_in k d) eqn:E; [exact Hwf|].
  apply NoDup_app; [exact Hwf|repeat constructor; simpl; tauto|].
  intros a Ha [<-|[]].
  apply dict_in_true in Ha. congruence.
Qed.

Lemma dict_get_In d k v : dict_get d k = Some v -> In (k, v) d.
Proof.
  induction d as [|[k' v'] d IH]; simpl; [discriminate|].
  destruct (Z.eqb_spec k k') as [->|Hk].
  - intros H; inversion H; auto.
  - auto.
Qed.

Lemma dict_In_set d k v k0 v0 :
  In (k0, v0) (dict_set d k v) -> (k0, v0) = (k, v) \/ In (k0, v0) d.
Proof.
  induction d as [|[k' v'] d IH]; simpl.
  - intros [H|[]]; auto.
  - destruct (Z.eqb k k'); simpl; intros [H|H]; auto.
    destruct (IH H); auto.
Qed.
End DictLaws.


(** ** Registration *)

Lemma add_user_ok (self : DatingMatchmaker) (user_id : Z) (a : list float)
    (p : option Preferences) :
  length a = 100%nat ->
  add_user user_id a p self
  = (Ok tt, mkDatingMatchmaker (questions_config self)
              (dict_set (users self) user_id (mkUser a (stored_preferences p)))).
Proof.
  intros H. unfold add_user, mbind, get_self, set_users.
  rewrite H. reflexivity.
Qed.

Lemma add_user_raise (self : DatingMatchmaker) (user_id : Z) (a : list float)
    (p : option Preferences) :
  length a <> 100%nat ->
  add_user user_id a p self = (Raise InvalidAnswerLength, self).
Proof.
  intros H. unfold add_user, mbind, get_self, mraise.
  destruct (Nat.eqb_spec (length a) 100); [contradiction|reflexivity].
Qed.

Lemma default_config_nonempty : _default_question_config <> [].
Proof. discriminate. Qed.

(** The constructor never leaves the configuration empty, and
    registration keeps the configuration. *)
Lemma reachable_config_nonempty (self : DatingMatchmaker) :
  reachable self -> questions_config self <> [].
Proof.
  induction 1 as [config|self self' user_id a p _ IH Hadd].
  - destruct config as [[|q c]|]; simpl;
      [exact default_config_nonempty|discriminate|exact default_config_nonempty].
  - destruct (Nat.eq_dec (length a) 100) as [Hlen|Hlen].
    + rewrite add_user_ok in Hadd by assumption.
      inversion Hadd; subst. exact IH.
    + rewrite add_user_raise in Hadd by assumption. discriminate.
Qed.

Lemma reachable_registry_ok (self : DatingMatchmaker) :
  reachable self -> registry_ok self.
Proof.
  induction 1 as [config|self self' user_id a p _ IH Hadd].
  - split; [constructor|constructor].
  - destruct (Nat.eq_dec (length a) 100) as [Hlen|Hlen].
    + rewrite add_user_ok in Hadd by assumption.
      inversion Hadd; subst; clear Hadd.
      destruct IH as [Hwf Hall]. split; cbn [users].
      * now apply dict_wf_set.
      * apply Forall_forall. intros [k u] Hin.
        apply dict_In_set in Hin. destruct Hin as [Heq|Hin].
        -- inversion Heq; subst. exact Hlen.
        -- rewrite Forall_forall in Hall. exact (Hall _ Hin).
    + rewrite add_user_raise in Hadd by assumption. discriminate.
Qed.

(** A registered user of an object a program can hold has 100 answers. *)
Lemma registered_length (self : DatingMatchmaker) (user_id : Z) (u : User) :
  reachable self -> registered self user_id u ->
  length (answers u) = 100%nat.
Proof.
  intros Hr Hu. destruct (reachable_registry_ok self Hr) as [_ Hall].
  rewrite Forall_forall in Hall.
  exact (Hall (user_id, u) (dict_get_In _ _ _ Hu)).
Qed.

(** C4 (as amended).  Whatever the configuration, [add_user] fails with
    [InvalidAnswerLength], leaving the object as it was, exactly when the
    number of answers is not 100; otherwise it succeeds, keeps the
    configuration, stores the record under the id (in place of any
    earlier record of that id) and leaves the record of every other id as
    it was. *)
Theorem add_user_spec (self : DatingMatchmaker) (user_id : Z) (a : list float)
    (p : option Preferences) :
  (fst (add_user user_id a p self) = Raise InvalidAnswerLength
   <-> length a <> 100%nat)
  /\ (fst (add_user user_id a p self) = Ok tt <-> length a = 100%nat)
  /\ (fst (add_user user_id a p self) = Raise InvalidAnswerLength ->
      snd (add_user user_id a p self) = self)
  /\ (fst (add_user user_id a p self) = Ok tt ->
      let self' := snd (add_user user_id a p self) in
      questions_config self' = questions_config self
      /\ dict_get (users self') user_id = Some (mkUser a (stored_preferences p))
      /\ (forall k, k <> user_id ->
            dict_get (users self') k = dict_get (users self) k)
      /\ dict_keys (users self')
         = (if dict_in user_id (users self) then dict_keys (users self)
            else dict_keys (users self) ++ [user_id])).
Proof.
  destruct (Nat.eq_dec (length a) 100) as [Hlen|Hlen].
  - rewrite (add_user_ok self user_id a p Hlen); cbn [fst snd].
    repeat split; try congruence; try discriminate; cbn [users].
    + apply dict_get_set_eq.
    + intros k Hk. now apply dict_get_set_neq.
    + apply dict_keys_set.
  - rewrite (add_user_raise self user_id a p Hlen); cbn [fst snd].
    repeat split; try congruence; try discriminate.
Qed.

(** C4 as stated fails: under a one-question configuration (Q = 1) a
    vector of 100 answers, whose length is not Q, is accepted. *)
Lemma add_user_custom_config_counterexample :
  let self := __init__ (Some one_question_config) in
  let Q := length (questions_config self) in
  ~ (fst (add_user 7 (repeat 0%float 100) None self) = Raise InvalidAnswerLength
     <-> length (repeat 0%float 100) <> Q).
Proof.
  cbv zeta. intros [_ H].
  assert (E : fst (add_user 7 (repeat 0%float 100) None
                     (__init__ (Some one_question_config)))
              = Raise InvalidAnswerLength)
    by (apply H; simpl; discriminate).
  simpl in E. discriminate.
Qed.

(** ** The preference filter *)

Lemma truthy_location (p : Preferences) (l : float * float) :
  location p = Some l -> truthy p = true.
Proof. unfold truthy. now intros ->. Qed.

Lemma _check_preferences_located (self : DatingMatchmaker) (u1 u2 : User)
    (l1 l2 : float * float) :
  location (preferences u1) = Some l1 ->
  location (preferences u2) = Some l2 ->
  _check_preferences self u1 u2
  = (d <- _calculate_distance l1 l2 ;;
     Ok (negb (fgt d (py_min (bound_of (preferences u1))
                             (bound_of (preferences u2)))))).
Proof.
  intros H1 H2. unfold _check_preferences.
  rewrite (truthy_location _ _ H1), (truthy_location _ _ H2), H1, H2.
  cbn [negb orb]. destruct (_calculate_distance l1 l2) as [d|e];
    cbn [bind]; [|reflexivity].
  destruct (fgt d _); reflexivity.
Qed.

(** The distance, when there is one, is the rounded square root of the
    sum of the two squared differences. *)
Lemma _calculate_distance_value (l1 l2 : float * float) (d : float) :
  _calculate_distance l1 l2 = Ok d ->
  d = PrimFloat.sqrt ((fst l1 - fst l2) * (fst l1 - fst l2)
                      + (snd l1 - snd l2) * (snd l1 - snd l2))%float.
Proof.
  unfold _calculate_distance, py_square.
  destruct (_ && _); cbn [bind]; [discriminate|].
  destruct (_ && _); cbn [bind]; [discriminate|].
  intros H; inversion H; reflexivity.
Qed.


(** ** The overall percentage *)

Lemma calculate_compatibility_passed (self : DatingMatchmaker) (x y : Z)
    (u1 u2 : User) (sim comp : float) :
  registered self x u1 -> registered self y u2 ->
  _check_dealbreakers self u1 u2 = Ok [] ->
  _check_preferences self u1 u2 = Ok true ->
  _calculate_similarity self u1 u2 = Ok sim ->
  _calculate_complementarity self u1 u2 = Ok comp ->
  calculate_compatibility x y self
  = (total_score <-
       total_score_of (questions_config self)
         (weight_of similarity (questions_config self) * sim
          + weight_of complementary (questions_config self) * comp)%float
         (py_sum (map weight (dict_values (questions_config self)))) ;;
     percentage <- round (total_score * 100)%float ;;
     sim_pct <- round (sim * 100)%float ;;
     comp_pct <- round (comp * 100)%float ;;
     category_scores <- _calculate_category_scores self u1 u2 ;;
     Ok (percentage, Matched percentage sim_pct comp_pct category_scores),
     self).
Proof.
  intros Hx Hy Hdeal Hpref Hsim Hcomp.
  unfold calculate_compatibility, mbind, get_self, lift_result, dict_in.
  unfold registered in Hx, Hy. rewrite Hx, Hy. cbn [negb orb].
  rewrite Hdeal. cbn [bind]. rewrite Hpref. cbn [bind negb].
  rewrite Hsim, Hcomp. reflexivity.
Qed.

Lemma total_score_of_ok (config : dict Question) (n w t : float) :
  total_score_of config n w = Ok t -> t = (n / w)%float.
Proof.
  unfold total_score_of.
  destruct (items_of similarity config), (items_of complementary config);
    try (intros H; inversion H; reflexivity).
  destruct (w =? 0.0)%float; [discriminate|].
  intros H; inversion H; reflexivity.
Qed.

(** C3 (as amended).  For a pair of registered users that passes the
    dealbreaker and the preference check, with similarity score [sim]
    and complementary score [comp], the percentage that
    [calculate_compatibility] returns is
    [round(((Wsim * sim + Wcmp * comp) / W) * 100)], computed in binary64
    in this order of operations, with [Wsim] and [Wcmp] the sums of the
    weights of the similarity and of the complementary questions and [W]
    the sum of the weights of all questions of the configuration, in its
    order: the dealbreaker weights are in the divisor and in no term of
    the numerator.  The same value is the [overall_score] of the
    breakdown. *)
Theorem overall_percentage (self : DatingMatchmaker) (x y : Z) (u1 u2 : User)
    (sim comp : float) (percentage : Z) (breakdown : Breakdown) :
  registered self x u1 -> registered self y u2 ->
  _check_dealbreakers self u1 u2 = Ok [] ->
  _check_preferences self u1 u2 = Ok true ->
  _calculate_similarity self u1 u2 = Ok sim ->
  _calculate_complementarity self u1 u2 = Ok comp ->
  calculate_compatibility x y self = (Ok (percentage, breakdown), self) ->
  let Wsim := weight_of similarity (questions_config self) in
  let Wcmp := weight_of complementary (questions_config self) in
  let W := py_sum (map weight (dict_values (questions_config self))) in
  round (((Wsim * sim + Wcmp * comp) / W) * 100)%float = Ok percentage
  /\ exists sim_pct comp_pct category_scores,
       breakdown = Matched percentage sim_pct comp_pct category_scores.
Proof.
  intros Hx Hy Hdeal Hpref Hsim Hcomp Hcall Wsim Wcmp W.
  rewrite (calculate_compatibility_passed self x y u1 u2 sim comp) in Hcall
    by assumption.
  fold Wsim Wcmp W in Hcall.
  destruct (total_score_of _ _ W) as [t|] eqn:Ht; cbn [bind] in Hcall;
    [|discriminate].
  apply total_score_of_ok in Ht. subst t.
  destruct (round _) as [p|] eqn:Hp; cbn [bind] in Hcall; [|discriminate].
  destruct (round (sim * 100)) as [sp|]; cbn [bind] in Hcall; [|discriminate].
  destruct (round (comp * 100)) as [cp|]; cbn [bind] in Hcall;
    [|discriminate].
  destruct (_calculate_category_scores self u1 u2) as [cats|];
    cbn [bind] in Hcall; [|discriminate].
  inversion Hcall; subst. split; [reflexivity|]. now exists sp, cp, cats.
Qed.

(** ** The queries leave the object as it is *)

Lemma calculate_compatibility_run (self : DatingMatchmaker) (x y : Z) :
  calculate_compatibility x y self = (compat self x y, self).
Proof. reflexivity. Qed.

Lemma mbind_run {A B : Type} (c : M A) (k : A -> M B)
    (self : DatingMatchmaker) (r : result A) :
  c self = (r, self) ->
  mbind c k self
  = match r with Ok a => k a self | Raise e => (Raise e, self) end.
Proof. intros H. unfold mbind. rewrite H. reflexivity. Qed.

Lemma find_matches_loop_state (user_id : Z) (ids : list Z)
    (acc : list Match) (self : DatingMatchmaker) :
  snd (find_matches_loop user_id ids acc self) = self.
Proof.
  revert acc; induction ids as [|k ids IH]; intros acc; [reflexivity|].
  cbn [find_matches_loop]. destruct (Z.eqb k user_id); [apply IH|].
  rewrite (mbind_run _ _ self _ (calculate_compatibility_run self user_id k)).
  destruct (compat self user_id k) as [[score breakdown]|e]; [|reflexivity].
  destruct (score >? 0)%Z; apply IH.
Qed.

Lemma find_matches_state (user_id top_n : Z) (self : DatingMatchmaker) :
  snd (find_matches user_id top_n self) = self.
Proof.
  unfold find_matches, mbind at 1, get_self.
  destruct (negb (dict_in user_id (users self))); [reflexivity|].
  unfold mbind, mret.
  pose proof (find_matches_loop_state user_id (dict_keys (users self)) [] self) as H.
  destruct (find_matches_loop user_id (dict_keys (users self)) [] self)
    as [[ms|e] self']; simpl in H; subst; reflexivity.
Qed.

Lemma batch_inner_state (user1_id : Z) (ids : list Z) (m : Matrix)
    (self : DatingMatchmaker) :
  snd (batch_inner user1_id ids m self) = self.
Proof.
  revert m; induction ids as [|k ids IH]; intros m; [reflexivity|].
  cbn [batch_inner]. destruct (Z.eqb user1_id k); [apply IH|].
  destruct (matrix_get m k user1_id) as [v|].
  - unfold mbind, lift_result.
    destruct (matrix_set m user1_id k v); [apply IH|reflexivity].
  - rewrite (mbind_run _ _ self _ (calculate_compatibility_run self user1_id k)).
    destruct (compat self user1_id k) as [r|e]; [|reflexivity].
    unfold mbind, lift_result.
    destruct (matrix_set m user1_id k r); [apply IH|reflexivity].
Qed.

Lemma batch_outer_state (ids : list Z) (m : Matrix) (self : DatingMatchmaker) :
  snd (batch_outer ids m self) = self.
Proof.
  revert m; induction ids as [|k ids IH]; intros m; [reflexivity|].
  cbn [batch_outer]. unfold mbind at 1, get_self. unfold mbind.
  pose proof (batch_inner_state k (dict_keys (users self)) (dict_set m k []) self)
    as H.
  destruct (batch_inner k (dict_keys (users self)) (dict_set m k []) self)
    as [[m'|e] self']; simpl in H; subst; [apply IH|reflexivity].
Qed.

Lemma batch_processing_state (self : DatingMatchmaker) :
  snd (batch_processing self) = self.
Proof. unfold batch_processing, mbind, get_self. apply batch_outer_state. Qed.
(** ** Ranking *)

Lemma find_matches_loop_run (self : DatingMatchmaker) (user_id : Z)
    (ids : list Z) (acc : list Match) :
  find_matches_loop user_id ids acc self
  = (ms <- score_all self user_id
             (filter (fun k => negb (Z.eqb k user_id)) ids) ;;
     Ok (acc ++ filter positive ms),
     self).
Proof.
  revert acc; induction ids as [|k ids IH]; intros acc.
  - simpl. now rewrite app_nil_r.
  - cbn [find_matches_loop filter].
    destruct (Z.eqb k user_id); cbn [negb]; [apply IH|].
    rewrite (mbind_run _ _ self _ (calculate_compatibility_run self user_id k)).
    cbn [score_all]. destruct (compat self user_id k) as [[s b]|e];
      cbn [bind]; [|reflexivity].
    assert (Hp : positive (k, s, b) = (s >? 0)%Z) by reflexivity.
    destruct (s >? 0)%Z eqn:Hs; rewrite IH;
      destruct (score_all self user_id _) as [ms|e]; cbn [bind fst snd filter];
      try reflexivity; rewrite Hp.
    + now rewrite <- app_assoc.
    + reflexivity.
Qed.

Lemma insert_desc_perm (x : Match) (l : list Match) :
  Permutation (insert_desc x l) (x :: l).
Proof.
  induction l as [|y l IH]; simpl; [reflexivity|].
  destruct (snd (fst x) <? snd (fst y))%Z; [|reflexivity].
  rewrite IH. apply perm_swap.
Qed.

Lemma sort_desc_perm (l : list Match) : Permutation (sort_desc l) l.
Proof.
  induction l as [|x l IH]; simpl; [reflexivity|].
  rewrite insert_desc_perm. now constructor.
Qed.

Lemma insert_desc_sorted (x : Match) (l : list Match) :
  StronglySorted desc l -> StronglySorted desc (insert_desc x l).
Proof.
  induction 1 as [|y l Hs IH Hall]; simpl; [repeat constructor|].
  destruct (Z.ltb_spec (snd (fst x)) (snd (fst y))) as [Hlt|Hge].
  - constructor; [exact IH|].
    apply Forall_forall. intros z Hz.
    apply (Permutation_in _ (insert_desc_perm x l)) in Hz.
    destruct Hz as [<-|Hz]; [unfold desc, score; lia|].
    rewrite Forall_forall in Hall. now apply Hall.
  - constructor; [now constructor|].
    constructor; [exact Hge|].
    eapply Forall_impl; [|exact Hall].
    intros z Hz. unfold desc, score in *. lia.
Qed.

Lemma sort_desc_sorted (l : list Match) : StronglySorted desc (sort_desc l).
Proof.
  induction l as [|x l IH]; simpl; [constructor|].
  now apply insert_desc_sorted.
Qed.

Lemma insert_desc_stable (s : Z) (x : Match) (l : list Match) :
  filter (fun m => Z.eqb (score m) s) (insert_desc x l)
  = filter (fun m => Z.eqb (score m) s) (x :: l).
Proof.
  induction l as [|y l IH]; [reflexivity|].
  cbn [insert_desc].
  destruct (Z.ltb_spec (snd (fst x)) (snd (fst y))) as [Hlt|Hge]; [|reflexivity].
  cbn [filter] in *. rewrite IH. fold (score x) in *. fold (score y) in *.
  destruct (Z.eqb_spec (score x) s), (Z.eqb_spec (score y) s);
    try reflexivity; lia.
Qed.

(** Entries of equal score keep their order. *)
Lemma sort_desc_stable (s : Z) (l : list Match) :
  filter (fun m => Z.eqb (score m) s) (sort_desc l)
  = filter (fun m => Z.eqb (score m) s) l.
Proof.
  induction l as [|x l IH]; [reflexivity|].
  cbn [sort_desc fold_right]. fold (sort_desc l).
  rewrite insert_desc_stable. cbn [filter]. now rewrite IH.
Qed.

Lemma slice_to_nonneg {A : Type} (l : list A) (n : Z) :
  (0 <= n)%Z ->
  slice_to l n = firstn (Z.to_nat n) l
  /\ (Z.of_nat (length (slice_to l n)) <= n)%Z.
Proof.
  intros Hn. unfold slice_to.
  destruct (Z.leb_spec 0 n); [|lia]. split; [reflexivity|].
  pose proof (firstn_le_length (Z.to_nat n) l). lia.
Qed.

Lemma score_all_spec (self : DatingMatchmaker) (user_id : Z) (ids : list Z)
    (ms : list Match) :
  score_all self user_id ids = Ok ms
  <-> Forall2 (fun k m => fst (fst m) = k
                          /\ compat self user_id k = Ok (score m, snd m))
              ids ms.
Proof.
  revert ms; induction ids as [|k ids IH]; intros ms; simpl.
  - split; [intros H; inversion H; constructor|intros H; inversion H; reflexivity].
  - split.
    + destruct (compat self user_id k) as [[s b]|e] eqn:Hc; cbn [bind];
        [|discriminate].
      destruct (score_all self user_id ids) as [ms'|e]; cbn [bind]; [|discriminate].
      intros H; inversion H; subst.
      constructor; [split; [reflexivity|exact Hc]|].
      now apply IH.
    + intros H. inversion H as [|? [[k' s] b] ? ms' [Hk Hc] Hrest]; subst.
      unfold score in Hc; cbn [fst snd] in *. rewrite Hc. cbn [bind].
      apply IH in Hrest. rewrite Hrest. cbn [bind fst snd]. now subst.
Qed.

Lemma find_matches_run (self : DatingMatchmaker) (user_id top_n : Z) :
  find_matches user_id top_n self
  = if dict_in user_id (users self)
    then (ms <- score_all self user_id (others self user_id) ;;
          Ok (slice_to (sort_desc (filter positive ms)) top_n),
          self)
    else (Raise UserNotFound, self).
Proof.
  unfold find_matches, mbind at 1, get_self.
  destruct (dict_in user_id (users self)); cbn [negb]; [|reflexivity].
  unfold mbind. rewrite find_matches_loop_run. fold (others self user_id).
  destruct (score_all self user_id (others self user_id)); reflexivity.
Qed.

(** C6 (as amended).  [find_matches(user_id, top_n)] fails with
    [UserNotFound] when the id is not registered.  Otherwise it scores
    every other registered user in registration order (a failure of one
    of these computations is the failure of the call), discards every
    pair whose score is not positive, sorts the remaining entries by
    descending score, entries of equal score keeping their order, and
    returns [sorted[:top_n]]: for [top_n >= 0] the first [top_n] entries,
    so at most [top_n] tuples [(other_id, score, breakdown)]. *)
Theorem find_matches_spec (self : DatingMatchmaker) (user_id top_n : Z) :
  (dict_in user_id (users self) = false ->
   find_matches user_id top_n self = (Raise UserNotFound, self))
  /\ (dict_in user_id (users self) = true ->
      find_matches user_id top_n self
      = (ms <- score_all self user_id (others self user_id) ;;
         Ok (slice_to (sort_desc (filter positive ms)) top_n),
         self))
  /\ (forall ms,
        score_all self user_id (others self user_id) = Ok ms
        <-> Forall2 (fun k m =>
                       fst (fst m) = k
                       /\ fst (calculate_compatibility user_id k self)
                          = Ok (score m, snd m))
                    (others self user_id) ms)
  /\ (forall k, In k (others self user_id)
                <-> In k (dict_keys (users self)) /\ k <> user_id)
  /\ (forall ms m, In m (filter positive ms) <-> In m ms /\ (0 < score m)%Z)
  /\ (forall ms,
        Permutation (sort_desc ms) ms
        /\ StronglySorted desc (sort_desc ms)
        /\ forall s, filter (fun m => Z.eqb (score m) s) (sort_desc ms)
                     = filter (fun m => Z.eqb (score m) s) ms)
  /\ (forall ms : list Match,
        (0 <= top_n)%Z ->
        slice_to ms top_n = firstn (Z.to_nat top_n) ms
        /\ (Z.of_nat (length (slice_to ms top_n)) <= top_n)%Z).
Proof.
  repeat split.
  - intros H. now rewrite find_matches_run, H.
  - intros H. now rewrite find_matches_run, H.
  - apply score_all_spec.
  - apply score_all_spec.
  - unfold others in H. apply filter_In in H. tauto.
  - unfold others in H. apply filter_In in H. destruct H as [_ H].
    intros ->. rewrite Z.eqb_refl in H. discriminate.
  - intros [Hin Hne]. unfold others. apply filter_In. split; [exact Hin|].
    destruct (Z.eqb_spec k user_id); [contradiction|reflexivity].
  - apply filter_In in H. tauto.
  - apply filter_In in H. destruct H as [_ H]. unfold positive in H. lia.
  - intros [Hin Hpos]. apply filter_In. split; [exact Hin|].
    unfold positive. lia.
  - apply sort_desc_perm.
  - apply sort_desc_sorted.
  - intros s. apply sort_desc_stable.
  - now apply slice_to_nonneg.
  - now apply slice_to_nonneg.
Qed.

(** C6 as stated fails.  With [top_n = -1] and two candidates of score
    67 the call returns one tuple, which is more than [top_n]; and a
    candidate whose score is -100, not 0, is discarded. *)
Lemma find_matches_counterexample :
  (exists ms, fst (find_matches 1 (-1) three_alike) = Ok ms
              /\ length ms = 1%nat)
  /\ (exists breakdown,
        fst (calculate_compatibility 1 2 opposite) = Ok ((-100)%Z, breakdown)
        /\ fst (find_matches 1 10 opposite) = Ok []).
Proof.
  split.
  - match goal with
    | |- exists ms, ?t = Ok ms /\ _ =>
        let v := eval vm_compute in t in
        assert (E : t = v) by (vm_compute; reflexivity)
    end.
    rewrite E. eexists. split; reflexivity.
  - match goal with
    | |- exists b, ?t = Ok (_, b) /\ _ =>
        let v := eval vm_compute in t in
        assert (E : t = v) by (vm_compute; reflexivity)
    end.
    rewrite E. eexists. split; [reflexivity|]. vm_compute. reflexivity.
Qed.

(** ** The batch matrix *)

Lemma index_of_head (a : Z) (P tl : list Z) :
  ~ In a P -> index_of a (P ++ a :: tl) = length P.
Proof.
  induction P as [|p P IH]; cbn [app index_of length]; intros H.
  - now rewrite Z.eqb_refl.
  - destruct (Z.eqb_spec a p) as [->|_]; [exfalso; apply H; now left|].
    rewrite IH; [reflexivity|]. intros Hin. apply H. now right.
Qed.

Lemma index_of_later (a b : Z) (P tl : list Z) :
  ~ In b P -> b <> a -> (length P < index_of b (P ++ a :: tl))%nat.
Proof.
  induction P as [|p P IH]; cbn [app index_of length]; intros H Hne.
  - destruct (Z.eqb_spec b a); [contradiction|lia].
  - destruct (Z.eqb_spec b p) as [->|_]; [exfalso; apply H; now left|].
    assert (~ In b P) by (intros Hin; apply H; now right).
    specialize (IH H0 Hne). lia.
Qed.

Lemma index_of_inj (a b : Z) (l : list Z) :
  In a l -> In b l -> index_of a l = index_of b l -> a = b.
Proof.
  induction l as [|k l IH]; cbn [index_of]; intros Ha Hb; [destruct Ha|].
  destruct (Z.eqb_spec a k) as [->|Ha'], (Z.eqb_spec b k) as [->|Hb'];
    try congruence; try discriminate.
  intros E. apply IH; [destruct Ha; congruence|destruct Hb; congruence|lia].
Qed.

Section Batch.
Variable self : DatingMatchmaker.

(** The two orders of a pair name one outcome. *)
Lemma in_order_swap (a b : Z) :
  In a (dict_keys (users self)) -> In b (dict_keys (users self)) ->
  a <> b -> in_order self a b = in_order self b a.
Proof.
  intros Ha Hb Hab. unfold in_order.
  pose proof (index_of_inj a b _ Ha Hb) as Hinj.
  destruct (Nat.leb_spec (index_of a (dict_keys (users self)))
                         (index_of b (dict_keys (users self))));
    destruct (Nat.leb_spec (index_of b (dict_keys (users self)))
                           (index_of a (dict_keys (users self))));
    try reflexivity; [exfalso; apply Hab, Hinj|]; lia.
Qed.

(** Storing the outcome of [(a, b)] in the row of [a]. *)
Lemma store_ok (m : Matrix) (P : list Z) (a b : Z)
    (row : dict (Z * Breakdown)) (done : list Z) (v : Z * Breakdown) :
  ~ In a P -> a <> b ->
  rows_ok self m P -> rows_only m (a :: P) ->
  dict_get m a = Some row -> row_ok self a row done ->
  in_order self a b = Ok v ->
  let m' := dict_set m a (dict_set row b v) in
  matrix_set m a b v = Ok m'
  /\ rows_ok self m' P /\ rows_only m' (a :: P)
  /\ dict_get m' a = Some (dict_set row b v)
  /\ row_ok self a (dict_set row b v) (done ++ [b]).
Proof.
  intros HaP Hab Hrows Honly Hrow [R1 R2] Hv m'.
  split; [unfold matrix_set; now rewrite Hrow|].
  split; [|split; [|split; [apply dict_get_set_eq|split]]].
  - intros p Hp. destruct (Hrows p Hp) as [r [Hr Hok]].
    exists r. split; [|exact Hok].
    unfold m'. rewrite dict_get_set_neq; [exact Hr|]. intros ->. contradiction.
  - intros k Hk. destruct (Z.eq_dec k a) as [->|Hne]; [now left|].
    apply Honly. unfold m' in Hk. now rewrite dict_get_set_neq in Hk.
  - intros b' Hin Hne. apply in_app_or in Hin.
    destruct (Z.eq_dec b' b) as [->|Hb].
    + exists v. split; [apply dict_get_set_eq|exact Hv].
    + rewrite dict_get_set_neq by exact Hb.
      destruct Hin as [Hin|[E|[]]]; [now apply R1|congruence].
  - intros b' v' Hget. destruct (Z.eq_dec b' b) as [->|Hb].
    + split; [apply in_or_app; right; now left|congruence].
    + rewrite dict_get_set_neq in Hget by exact Hb.
      destruct (R2 b' v' Hget) as [Hin Hne].
      split; [apply in_or_app; now left|exact Hne].
Qed.

Lemma row_ok_skip (a : Z) (row : dict (Z * Breakdown)) (done : list Z) :
  row_ok self a row done -> row_ok self a row (done ++ [a]).
Proof.
  intros [R1 R2]. split.
  - intros b Hin Hne. apply in_app_or in Hin.
    destruct Hin as [Hin|[E|[]]]; [now apply R1|congruence].
  - intros b v Hget. destruct (R2 b v Hget).
    split; [apply in_or_app; now left|assumption].
Qed.

(** The inner loop on the row of [a], the rows of [P] being complete
    and every user outside [P] registered after [a]. *)
Lemma batch_inner_spec (a : Z) (P ids : list Z) :
  In a (dict_keys (users self)) -> ~ In a P ->
  (forall b, In b (dict_keys (users self)) -> ~ In b P -> b <> a ->
     (index_of a (dict_keys (users self))
      < index_of b (dict_keys (users self)))%nat) ->
  (forall b, In b ids -> In b (dict_keys (users self))) ->
  forall (m : Matrix) (row : dict (Z * Breakdown)) (done : list Z),
    rows_ok self m P -> rows_only m (a :: P) ->
    dict_get m a = Some row -> row_ok self a row done ->
    match fst (batch_inner a ids m self) with
    | Ok m' =>
        rows_ok self m' P /\ rows_only m' (a :: P)
        /\ exists row', dict_get m' a = Some row'
                        /\ row_ok self a row' (done ++ ids)
    | Raise e =>
        exists b, In b ids /\ b <> a /\ in_order self a b = Raise e
    end.
Proof.
  intros Ha HaP Hord.
  induction ids as [|b ids IH]; intros Hids m row done Hrows Honly Hrow Hok.
  - cbn. rewrite app_nil_r. eauto.
  - assert (Hb : In b (dict_keys (users self))) by (apply Hids; now left).
    assert (Hids' : forall k, In k ids -> In k (dict_keys (users self)))
      by (intros k Hk; apply Hids; now right).
    specialize (IH Hids').
    cbn [batch_inner]. destruct (Z.eqb_spec a b) as [<-|Hab].
    + specialize (IH m row (done ++ [a]) Hrows Honly Hrow (row_ok_skip _ _ _ Hok)).
      rewrite <- app_assoc in IH. cbn [app] in IH.
      destruct (fst (batch_inner a ids m self)); [exact IH|].
      destruct IH as [b [Hin H]]. exists b. split; [now right|exact H].
    + assert (Hstep : forall v, in_order self a b = Ok v ->
                match fst (batch_inner a ids
                             (dict_set m a (dict_set row b v)) self) with
                | Ok m' =>
                    rows_ok self m' P /\ rows_only m' (a :: P)
                    /\ exists row', dict_get m' a = Some row'
                                    /\ row_ok self a row' (done ++ b :: ids)
                | Raise e =>
                    exists b0, In b0 (b :: ids) /\ b0 <> a
                               /\ in_order self a b0 = Raise e
                end).
      { intros v Hv.
        destruct (store_ok m P a b row done v HaP Hab Hrows Honly Hrow Hok Hv)
          as [_ [Hrows' [Honly' [Hrow' Hok']]]].
        specialize (IH _ _ _ Hrows' Honly' Hrow' Hok').
        rewrite <- app_assoc in IH. cbn [app] in IH.
        destruct (fst (batch_inner a ids _ self)); [exact IH|].
        destruct IH as [b0 [Hin H]]. exists b0. split; [now right|exact H]. }
      destruct (matrix_get m b a) as [v|] eqn:Hget.
      * assert (Hv : in_order self a b = Ok v).
        { unfold matrix_get in Hget.
          destruct (dict_get m b) as [rowb|] eqn:Hgb; [|discriminate].
          assert (HbP : In b P).
          { destruct (Honly b) as [E|HbP]; [congruence|congruence|exact HbP]. }
          destruct (Hrows b HbP) as [rowb' [Hb' [R1 _]]].
          rewrite Hgb in Hb'. inversion Hb'; subst rowb'.
          destruct (R1 a Ha Hab) as [v' [Hv' Hc]].
          rewrite Hget in Hv'. inversion Hv'; subst v'.
          now rewrite in_order_swap. }
        unfold mbind at 1, lift_result. unfold matrix_set. rewrite Hrow.
        now apply Hstep.
      * assert (HbP : ~ In b P).
        { intros HbP. destruct (Hrows b HbP) as [rowb [Hgb [R1 _]]].
          destruct (R1 a Ha Hab) as [v [Hv _]].
          unfold matrix_get in Hget. rewrite Hgb, Hv in Hget. discriminate. }
        assert (Hio : in_order self a b = compat self a b).
        { unfold in_order.
          pose proof (Hord b Hb HbP (not_eq_sym Hab)).
          destruct (Nat.leb_spec (index_of a (dict_keys (users self)))
                                 (index_of b (dict_keys (users self))));
            [reflexivity|lia]. }
        rewrite (mbind_run _ _ self _ (calculate_compatibility_run self a b)).
        rewrite <- Hio.
        destruct (in_order self a b) as [r|e] eqn:Hc.
        -- unfold mbind at 1, lift_result. unfold matrix_set. rewrite Hrow.
           now apply Hstep.
        -- cbn [fst]. exists b. split; [now left|split; [congruence|exact Hc]].
Qed.

Lemma batch_outer_spec (ids : list Z) :
  forall (m : Matrix) (P : list Z),
    dict_keys (users self) = P ++ ids -> dict_wf (users self) ->
    rows_ok self m P -> rows_only m P ->
    match fst (batch_outer ids m self) with
    | Ok m' =>
        rows_ok self m' (dict_keys (users self))
        /\ rows_only m' (dict_keys (users self))
    | Raise e =>
        exists a b,
          In a (dict_keys (users self)) /\ In b (dict_keys (users self))
          /\ a <> b /\ in_order self a b = Raise e
    end.
Proof.
  induction ids as [|a ids IH]; intros m P Hkeys Hwf Hrows Honly.
  - cbn. rewrite Hkeys, app_nil_r. now split.
  - cbn [batch_outer]. unfold mbind at 1, get_self. unfold mbind.
    assert (Hnd : NoDup (P ++ a :: ids)) by (rewrite <- Hkeys; exact Hwf).
    assert (Ha : In a (dict_keys (users self)))
      by (rewrite Hkeys; apply in_or_app; right; now left).
    assert (HaP : ~ In a P).
    { intros HaP. apply NoDup_remove_2 in Hnd. apply Hnd.
      apply in_or_app. now left. }
    assert (Hord : forall b, In b (dict_keys (users self)) -> ~ In b P ->
              b <> a ->
              (index_of a (dict_keys (users self))
               < index_of b (dict_keys (users self)))%nat).
    { intros b Hb HbP Hba. rewrite Hkeys, (index_of_head a P ids HaP).
      now apply index_of_later. }
    pose proof (batch_inner_spec a P (dict_keys (users self)) Ha HaP Hord
                  (fun b H => H) (dict_set m a []) [] []) as Hin.
    pose proof (batch_inner_state a (dict_keys (users self))
                  (dict_set m a []) self) as Hst.
    destruct (batch_inner a (dict_keys (users self)) (dict_set m a []) self)
      as [[m1|e] self']; cbn [fst snd] in Hin, Hst; subst self'.
    + destruct Hin as [Hrows1 [Honly1 [row1 [Hrow1 Hok1]]]].
      * intros p Hp. destruct (Hrows p Hp) as [r [Hr Hok]].
        exists r. split; [|exact Hok].
        rewrite dict_get_set_neq; [exact Hr|]. intros ->. contradiction.
      * intros k Hk. destruct (Z.eq_dec k a) as [->|Hne]; [now left|].
        right. apply Honly. now rewrite dict_get_set_neq in Hk.
      * apply dict_get_set_eq.
      * split; [intros b []|intros b v Hget; discriminate].
      * cbn [app] in Hok1.
        apply (IH m1 (P ++ [a])).
        -- rewrite Hkeys, <- app_assoc. reflexivity.
        -- exact Hwf.
        -- intros p Hp. apply in_app_or in Hp.
           destruct Hp as [Hp|[<-|[]]]; [now apply Hrows1|].
           exists row1. split; assumption.
        -- intros k Hk. apply Honly1 in Hk.
           destruct Hk as [<-|Hk]; apply in_or_app; [right; now left|now left].
    + destruct Hin as [b [Hb [Hne Hc]]].
      * intros p Hp. destruct (Hrows p Hp) as [r [Hr Hok]].
        exists r. split; [|exact Hok].
        rewrite dict_get_set_neq; [exact Hr|]. intros ->. contradiction.
      * intros k Hk. destruct (Z.eq_dec k a) as [->|Hne]; [now left|].
        right. apply Honly. now rewrite dict_get_set_neq in Hk.
      * apply dict_get_set_eq.
      * split; [intros b []|intros b v Hget; discriminate].
      * cbn [fst]. exists a, b. repeat split; try assumption. congruence.
Qed.
End Batch.

(** The matrix, entry by entry. *)
Lemma batch_processing_outcome (self : DatingMatchmaker) :
  dict_wf (users self) ->
  match fst (batch_processing self) with
  | Ok matrix =>
      forall a b,
        (In a (dict_keys (users self)) -> In b (dict_keys (users self)) ->
         a <> b ->
         exists v, matrix_get matrix a b = Some v
                   /\ matrix_get matrix b a = Some v
                   /\ in_order self a b = Ok v)
        /\ matrix_get matrix a a = None
        /\ (matrix_get matrix a b <> None ->
            In a (dict_keys (users self)) /\ In b (dict_keys (users self)))
  | Raise e =>
      exists a b,
        In a (dict_keys (users self)) /\ In b (dict_keys (users self))
        /\ a <> b /\ in_order self a b = Raise e
  end.
Proof.
  intros Hwf.
  unfold batch_processing, mbind, get_self.
  pose proof (batch_outer_spec self (dict_keys (users self)) [] []
                eq_refl Hwf) as H.
  destruct (fst (batch_outer (dict_keys (users self)) [] self)) as [m|e].
  - destruct H as [Hrows Honly].
    { intros a []. }
    { intros k Hk. simpl in Hk. congruence. }
    assert (Hentry : forall a b, In a (dict_keys (users self)) ->
              In b (dict_keys (users self)) -> a <> b ->
              exists v, matrix_get m a b = Some v /\ in_order self a b = Ok v).
    { intros a b Ha Hb Hab. destruct (Hrows a Ha) as [row [Hrow [R1 _]]].
      destruct (R1 b Hb (not_eq_sym Hab)) as [v [Hv Hc]].
      exists v. unfold matrix_get. rewrite Hrow. auto. }
    intros a b. split; [|split].
    + intros Ha Hb Hab.
      destruct (Hentry a b Ha Hb Hab) as [v [Hv Hc]].
      destruct (Hentry b a Hb Ha (not_eq_sym Hab)) as [v' [Hv' Hc']].
      rewrite (in_order_swap self b a Hb Ha (not_eq_sym Hab)), Hc in Hc'.
      inversion Hc'; subst v'. exists v. auto.
    + unfold matrix_get. destruct (dict_get m a) as [row|] eqn:Hrow; [|reflexivity].
      assert (Ha : In a (dict_keys (users self))) by (apply Honly; congruence).
      destruct (Hrows a Ha) as [row' [Hrow' [_ R2]]].
      rewrite Hrow in Hrow'. inversion Hrow'; subst row'.
      destruct (dict_get row a) as [v|] eqn:Hv; [|reflexivity].
      destruct (R2 a v Hv) as [_ Hne]. congruence.
    + unfold matrix_get. destruct (dict_get m a) as [row|] eqn:Hrow; [|congruence].
      intros Hget.
      assert (Ha : In a (dict_keys (users self))) by (apply Honly; congruence).
      destruct (Hrows a Ha) as [row' [Hrow' [_ R2]]].
      rewrite Hrow in Hrow'. inversion Hrow'; subst row'.
      destruct (dict_get row b) as [v|] eqn:Hv; [|congruence].
      destruct (R2 b v Hv) as [Hb _]. auto.
  - apply H.
    + intros a [].
    + intros k Hk. simpl in Hk. congruence.
Qed.

(** ** The theorems at concrete registries *)

(** The registries evaluated here are chosen so that no sum depends on
    the order of its terms: the answers are equal in every position, or
    the vectors that are weighted have one entry that is not zero. *)

Lemma default_indices_ok : indices_ok _default_question_config.
Proof.
  apply Forall_forall. intros item Hin.
  assert (H : forallb (fun item => (0 <=? fst item)%Z && (fst item <? 100)%Z)
                _default_question_config = true)
    by (vm_compute; reflexivity).
  rewrite forallb_forall in H. specialize (H item Hin).
  apply andb_true_iff in H. destruct H as [H1 H2].
  apply Z.leb_le in H1. apply Z.ltb_lt in H2. lia.
Qed.

(** C2 at the default configuration: answers all 1 against answers all
    0 differ by 1 on the ten dealbreaker questions. *)
Lemma dealbreaker_veto_witness :
  registered one_zero 1 (plain ones) /\ registered one_zero 2 (plain zeros)
  /\ calculate_compatibility 1 2 one_zero
     = (Ok (0%Z, Vetoed (violated (questions_config one_zero) ones zeros)),
        one_zero)
  /\ violated (questions_config one_zero) ones zeros
     = [90; 91; 92; 93; 94; 95; 96; 97; 98; 99]%Z.
Proof.
  split; [reflexivity|split; [reflexivity|split]].
  - refine (proj1 (dealbreaker_veto one_zero 1 2 (plain ones) (plain zeros)
                     eq_refl eq_refl eq_refl eq_refl default_indices_ok _)).
    exists 90%Z, (mkQuestion 10.0 dealbreaker).
    split; [apply dict_get_In; reflexivity|split; reflexivity].
  - vm_compute. reflexivity.
Defined.

(** The threshold at its edge: the binary64 difference of 0.8 and 0.1
    is above the binary64 0.7, that of 1.0 and 0.3 is not. *)
Lemma far_apart_boundary :
  far_apart [0.8%float] [0.1%float] 0 = true
  /\ far_apart [1.0%float] [0.3%float] 0 = false.
Proof. split; reflexivity. Qed.


(** C3 on two users who answer 1 to every question under the default
    configuration: similarity 1, complementarity 0, weights 240, 20 and
    360. *)
Lemma overall_percentage_witness :
  calculate_compatibility 1 2 two_alike
  = (Ok (67%Z, Matched 67 100 0 all_hundred), two_alike)
  /\ round (((weight_of similarity _default_question_config * 1
              + weight_of complementary _default_question_config * 0)
             / py_sum (map weight (dict_values _default_question_config)))
            * 100)%float
     = Ok 67%Z
  /\ round (((240 * 1 + 20 * 0) / 360) * 100)%float = Ok 67%Z.
Proof.
  assert (Hcall : calculate_compatibility 1 2 two_alike
                  = (Ok (67%Z, Matched 67 100 0 all_hundred), two_alike))
    by (vm_compute; reflexivity).
  assert (H1 : _check_dealbreakers two_alike (plain ones) (plain ones) = Ok [])
    by (vm_compute; reflexivity).
  assert (H2 : _check_preferences two_alike (plain ones) (plain ones) = Ok true)
    by reflexivity.
  assert (H3 : _calculate_similarity two_alike (plain ones) (plain ones)
               = Ok 1%float)
    by (vm_compute; reflexivity).
  assert (H4 : _calculate_complementarity two_alike (plain ones) (plain ones)
               = Ok 0%float)
    by (vm_compute; reflexivity).
  split; [exact Hcall|split].
  - exact (proj1 (overall_percentage two_alike 1 2 (plain ones) (plain ones)
                    1 0 67 _ eq_refl eq_refl H1 H2 H3 H4 Hcall)).
  - vm_compute. reflexivity.
Defined.

(** C3 as stated fails.  Under a configuration of one similarity
    question of weight 109 and one dealbreaker of weight 91, two users who
    answer 1 to every question have similarity 1 and complementarity 1
    and pass both checks; the formula of the claim,
    [round(100 * (109 * 1 + 0 * 1) / (109 + 0 + 91))], is
    [round(54.5) = 54], and the program, which divides before it
    multiplies by 100, returns [round(54.500000000000007) = 55]. *)
Lemma overall_percentage_counterexample :
  _check_dealbreakers tied (plain ones) (plain ones) = Ok []
  /\ _check_preferences tied (plain ones) (plain ones) = Ok true
  /\ _calculate_similarity tied (plain ones) (plain ones) = Ok 1%float
  /\ _calculate_complementarity tied (plain ones) (plain ones) = Ok 1%float
  /\ spec_percentage (questions_config tied) 1 1 = Ok 54%Z
  /\ calculate_compatibility 1 2 tied
     = (Ok (55%Z, Matched 55 100 100 all_hundred), tied).
Proof. repeat split; vm_compute; reflexivity. Qed.

(** ** Where the code departs from its documentation *)

(** C1 fails on the code.  Under a configuration of two similarity
    questions (weights 20 and 7) and one dealbreaker (weight 173), for a
    user who answers 0.1 and one who answers 0.3 to the first question,
    both 0 to the second and 1 to the others, the weighted similarity is
    1 in one order of the two users and 0.99999999999999989 in the
    other, and the scores are 14 and 13. *)
Theorem calculate_compatibility_not_symmetric :
  registered uneven 1 (plain low_first)
  /\ registered uneven 2 (plain high_first)
  /\ _calculate_similarity uneven (plain low_first) (plain high_first)
     = Ok 1%float
  /\ _calculate_similarity uneven (plain high_first) (plain low_first)
     = Ok 0.99999999999999989%float
  /\ calculate_compatibility 1 2 uneven
     = (Ok (14%Z, Matched 14 100 100 all_hundred), uneven)
  /\ calculate_compatibility 2 1 uneven
     = (Ok (13%Z, Matched 13 100 100 all_hundred), uneven).
Proof. repeat split; vm_compute; reflexivity. Qed.

(** C7 fails on the code.  For the same two users the matrix holds, at
    [matrix[2][1]], the mirrored outcome of the pair [(1, 2)], of score
    14, where [calculate_compatibility(2, 1)] returns 13. *)
Theorem batch_processing_mirrors_first_order :
  fst (batch_processing uneven)
  = Ok [(1%Z, [(2%Z, (14%Z, Matched 14 100 100 all_hundred))]);
        (2%Z, [(1%Z, (14%Z, Matched 14 100 100 all_hundred))])]
  /\ fst (calculate_compatibility 2 1 uneven)
     = Ok (13%Z, Matched 13 100 100 all_hundred).
Proof. split; vm_compute; reflexivity. Qed.

(** C8 fails on the code.  Under the default configuration two users
    with identical answers, all 0 or all 1e-200, and no preferences, get
    no score: the similarity is 0/0 and [round] raises. *)
Theorem identical_answers_without_score :
  calculate_compatibility 1 2 two_zero = (Raise NaNToInteger, two_zero)
  /\ calculate_compatibility 1 2 two_tiny = (Raise NaNToInteger, two_tiny)
  /\ is_nan_result (_calculate_similarity two_zero (plain zeros) (plain zeros))
     = true
  /\ is_nan_result (_calculate_similarity two_tiny (plain tiny) (plain tiny))
     = true.
Proof. repeat split; vm_compute; reflexivity. Qed.

(** C9 fails on the code.  A user who answers 0 to every question and
    one who answers 0.5 to every question are 0.5 apart on every
    complementary question and pass both checks; their complementary
    score is 1, and the call raises, the similarity being 0/0. *)
Theorem complementary_optimum_without_score :
  _check_dealbreakers zero_half (plain zeros) (plain halves) = Ok []
  /\ _check_preferences zero_half (plain zeros) (plain halves) = Ok true
  /\ Forall (fun i => abs (item_at zeros i - item_at halves i) = 0.5%float)
            (map fst (items_of complementary (questions_config zero_half)))
  /\ _calculate_complementarity zero_half (plain zeros) (plain halves)
     = Ok 1%float
  /\ calculate_compatibility 1 2 zero_half = (Raise NaNToInteger, zero_half).
Proof.
  repeat split; try (vm_compute; reflexivity).
  apply Forall_forall. intros i Hi.
  assert (H : forallb (fun i => Leibniz.eqb
                         (abs (item_at zeros i - item_at halves i)) 0.5)
                (map fst (items_of complementary (questions_config zero_half)))
              = true) by (vm_compute; reflexivity).
  rewrite forallb_forall in H. now apply Leibniz.eqb_spec, H.
Qed.

(** C10 fails on the code.  Two users who answer 1e-200 to every
    question have answers in [[0, 1]] and no zero sub-vector; the squares
    of their answers underflow to 0, the similarity is 0/0, and the call
    raises where the claim has it return percentages. *)
Theorem scores_without_percentages :
  Forall (fun x => (0 <=? x)%float = true /\ (x <=? 1)%float = true
                   /\ (x =? 0)%float = false) tiny
  /\ registered two_tiny 1 (plain tiny) /\ registered two_tiny 2 (plain tiny)
  /\ calculate_compatibility 1 2 two_tiny = (Raise NaNToInteger, two_tiny).
Proof.
  split; [|repeat split; vm_compute; reflexivity].
  apply Forall_forall. intros x Hx. apply repeat_spec in Hx. subst x.
  repeat split; reflexivity.
Qed.

(** * Further properties of the class *)

(** ** The distance between two locations *)

Lemma infinity_spec (x : float) (s : bool) :
  Prim2SF x = S754_infinity s -> is_infinity x = true.
Proof.
  intros H. unfold is_infinity.
  rewrite FloatAxioms.eqb_spec, abs_spec, H. reflexivity.
Qed.

(** A finite float minus itself is [+0]. *)
Lemma sub_diag (x : float) : is_finite x = true -> (x - x = 0)%float.
Proof.
  intros Hf. apply Prim2SF_inj. rewrite sub_spec.
  change (Prim2SF 0) with (S754_zero false).
  unfold is_finite in Hf. apply negb_true_iff, orb_false_iff in Hf.
  destruct Hf as [Hn Hi].
  destruct (Prim2SF x) as [s|s| |s m e] eqn:E.
  - destruct s; reflexivity.
  - apply infinity_spec in E. congruence.
  - apply nan_spec in E. congruence.
  - unfold SF64sub, SFsub. cbv zeta. now rewrite Z.sub_diag.
Qed.

Lemma py_square_abs (x : float) : py_square x = py_square (abs x).
Proof.
  unfold py_square. now rewrite is_finite_abs, <- mul_self_abs.
Qed.

(** The square of a difference does not see its sign. *)
Lemma py_square_sub_swap (a b : float) :
  py_square (a - b) = py_square (b - a).
Proof.
  rewrite (py_square_abs (a - b)), (py_square_abs (b - a)).
  now rewrite abs_sub_swap.
Qed.

Lemma _calculate_distance_sym (a b : float * float) :
  _calculate_distance a b = _calculate_distance b a.
Proof.
  unfold _calculate_distance.
  now rewrite (py_square_sub_swap (fst a)), (py_square_sub_swap (snd a)).
Qed.

(** The rounding of a square root leaves it positive, zero, infinite or
    NaN. *)
Lemma binary_round_aux_positive (m e : Z) (l : SpecFloat.location) :
  SFltb (binary_round_aux prec emax false m e l) (S754_zero false) = false.
Proof.
  unfold binary_round_aux.
  destruct (shr_fexp prec emax m e l) as [mrs e1].
  destruct (shr_fexp prec emax _ e1 loc_Exact) as [mrs' e2].
  destruct (shr_m mrs'); try reflexivity.
  destruct (e2 <=? emax - prec)%Z; reflexivity.
Qed.

Lemma sqrt_not_negative (x : float) : flt (PrimFloat.sqrt x) 0 = false.
Proof.
  unfold flt. rewrite ltb_spec, sqrt_spec.
  change (Prim2SF 0) with (S754_zero false).
  unfold SF64sqrt, SFsqrt.
  destruct (Prim2SF x) as [s|s| |s m e]; try reflexivity;
    destruct s; try reflexivity.
  destruct (SFsqrt_core_binary prec emax (Z.pos m) e) as [[mz ez] lz].
  apply binary_round_aux_positive.
Qed.

(** X1.  [_calculate_distance] does not depend on the order of the two
    locations, in value and in failure alike; a distance is never below
    zero; and a location with finite coordinates is at distance 0 from
    itself. *)
Theorem _calculate_distance_symmetric (a b : float * float) :
  _calculate_distance a b = _calculate_distance b a
  /\ (forall d, _calculate_distance a b = Ok d -> flt d 0 = false)
  /\ (is_finite (fst a) = true -> is_finite (snd a) = true ->
      _calculate_distance a a = Ok 0%float).
Proof.
  split; [apply _calculate_distance_sym|split].
  - intros d Hd. apply _calculate_distance_value in Hd. subst d.
    apply sqrt_not_negative.
  - intros H1 H2. unfold _calculate_distance.
    rewrite (sub_diag _ H1), (sub_diag _ H2). reflexivity.
Qed.

(** X1 on two locations five units apart. *)
Lemma _calculate_distance_symmetric_witness :
  _calculate_distance (3, 4)%float (0, 0)%float = Ok 5%float
  /\ _calculate_distance (0, 0)%float (3, 4)%float = Ok 5%float
  /\ _calculate_distance (3, 4)%float (3, 4)%float = Ok 0%float.
Proof.
  destruct (_calculate_distance_symmetric (3, 4)%float (0, 0)%float)
    as [Hsym [_ Hzero]].
  split; [vm_compute; reflexivity|split].
  - rewrite <- Hsym. vm_compute. reflexivity.
  - apply Hzero; reflexivity.
Defined.

(** ** The preference filter, in full *)

(** A distance exceeds the smaller of two bounds when it exceeds one of
    them. *)
Lemma fgt_py_min (d a b : float) :
  number a -> number b ->
  (fgt d (py_min a b) = true <-> fgt d a = true \/ fgt d b = true).
Proof.
  intros Ha Hb. unfold py_min, flt, fgt.
  destruct (b <? a)%float eqn:Hba.
  - split; [auto|]. intros [H|H]; [|exact H].
    apply ltb_cmp. apply (cmp_le_lt b a d).
    + left. now apply ltb_cmp.
    + now apply ltb_cmp.
  - split; [auto|]. intros [H|H]; [exact H|].
    apply ltb_cmp. apply (cmp_le_lt a b d); [|now apply ltb_cmp].
    pose proof (cmp_numbers b a Hb Ha) as Hn.
    rewrite (cmp_swap b a).
    destruct (cmp b a) as [[| |]|] eqn:E; cbn; auto; [|congruence].
    apply ltb_cmp in E. congruence.
Qed.

Lemma fgt_bound_of (d : float) (p : Preferences) :
  fgt d (bound_of p) = true
  <-> exists m, max_distance p = Some m /\ fgt d m = true.
Proof.
  unfold bound_of. destruct (max_distance p) as [m|].
  - split; [eauto|]. intros [m' [E H]]. now inversion E; subst.
  - unfold fgt. rewrite ltb_infinity. split; [discriminate|].
    intros [m [E _]]. discriminate.
Qed.

Lemma number_bound_of (p : Preferences) :
  bound_is_number p -> number (bound_of p).
Proof.
  unfold bound_is_number, bound_of.
  destruct (max_distance p); [auto|intros _; reflexivity].
Qed.

Lemma exceeds_stated (d : float) (p1 p2 : Preferences) :
  bound_is_number p1 -> bound_is_number p2 ->
  (fgt d (py_min (bound_of p1) (bound_of p2)) = true
   <-> exists m, (max_distance p1 = Some m \/ max_distance p2 = Some m)
                 /\ fgt d m = true).
Proof.
  intros H1 H2.
  rewrite (fgt_py_min d _ _ (number_bound_of _ H1) (number_bound_of _ H2)).
  rewrite !fgt_bound_of. split.
  - intros [[m [E H]]|[m [E H]]]; exists m; auto.
  - intros [m [[E|E] H]]; [left|right]; eauto.
Qed.

(** When the preference check fails. *)
Lemma check_preferences_false (self : DatingMatchmaker) (u1 u2 : User) :
  bound_is_number (preferences u1) -> bound_is_number (preferences u2) ->
  (_check_preferences self u1 u2 = Ok false
   <-> exists loc1 loc2 d m,
         location (preferences u1) = Some loc1
         /\ location (preferences u2) = Some loc2
         /\ _calculate_distance loc1 loc2 = Ok d
         /\ (max_distance (preferences u1) = Some m
             \/ max_distance (preferences u2) = Some m)
         /\ fgt d m = true).
Proof.
  intros Hn1 Hn2. split.
  - unfold _check_preferences.
    destruct (negb (truthy (preferences u1)) || negb (truthy (preferences u2)));
      [discriminate|].
    destruct (location (preferences u1)) as [l1|]; [|discriminate].
    destruct (location (preferences u2)) as [l2|]; [|discriminate].
    destruct (_calculate_distance l1 l2) as [d|] eqn:Hd; cbn [bind];
      [|discriminate].
    destruct (fgt d _) eqn:E; [|discriminate]. intros _.
    apply (exceeds_stated d _ _ Hn1 Hn2) in E. destruct E as [m [Hm Hgt]].
    exists l1, l2, d, m. auto.
  - intros [l1 [l2 [d [m [H1 [H2 [Hd [Hm Hgt]]]]]]]].
    rewrite (_check_preferences_located self u1 u2 l1 l2 H1 H2), Hd.
    cbn [bind].
    assert (E : fgt d (py_min (bound_of (preferences u1))
                              (bound_of (preferences u2))) = true)
      by (apply exceeds_stated; eauto).
    now rewrite E.
Qed.

(** When the preference check raises. *)
Lemma check_preferences_raise (self : DatingMatchmaker) (u1 u2 : User)
    (e : exn) :
  _check_preferences self u1 u2 = Raise e
  <-> exists loc1 loc2,
        location (preferences u1) = Some loc1
        /\ location (preferences u2) = Some loc2
        /\ _calculate_distance loc1 loc2 = Raise e.
Proof.
  split.
  - unfold _check_preferences.
    destruct (negb (truthy (preferences u1)) || negb (truthy (preferences u2)));
      [discriminate|].
    destruct (location (preferences u1)) as [l1|]; [|discriminate].
    destruct (location (preferences u2)) as [l2|]; [|discriminate].
    destruct (_calculate_distance l1 l2) as [d|e'] eqn:Hd; cbn [bind].
    + destruct (fgt d _); discriminate.
    + intros H; inversion H; subst. eauto.
  - intros [l1 [l2 [H1 [H2 Hd]]]].
    now rewrite (_check_preferences_located self u1 u2 l1 l2 H1 H2), Hd.
Qed.

(** The check does not depend on the order of the two users, when the
    bounds they state are numbers. *)
Lemma _check_preferences_sym (self : DatingMatchmaker) (u1 u2 : User) :
  bound_is_number (preferences u1) -> bound_is_number (preferences u2) ->
  _check_preferences self u1 u2 = _check_preferences self u2 u1.
Proof.
  intros Hn1 Hn2. unfold _check_preferences.
  rewrite (orb_comm (negb (truthy (preferences u1)))).
  destruct (negb (truthy (preferences u2)) || negb (truthy (preferences u1)));
    [reflexivity|].
  destruct (location (preferences u1)) as [l1|],
           (location (preferences u2)) as [l2|]; try reflexivity.
  rewrite (_calculate_distance_sym l2 l1).
  destruct (_calculate_distance l1 l2) as [d|e]; cbn [bind]; [|reflexivity].
  assert (E : fgt d (py_min (bound_of (preferences u1))
                            (bound_of (preferences u2)))
              = fgt d (py_min (bound_of (preferences u2))
                              (bound_of (preferences u1)))).
  { apply eq_true_iff_eq.
    rewrite (exceeds_stated d _ _ Hn1 Hn2), (exceeds_stated d _ _ Hn2 Hn1).
    split; intros [m [[H|H] Hm]]; exists m; auto. }
  now rewrite E.
Qed.

(** X2.  The preference check fails in one case only, when the bounds
    the users state are numbers: both users record a location and the
    distance between the two exceeds a [max_distance] that one of them
    states.  In particular a pair of which at most one records a location
    never fails the check, whatever bounds are stated. *)
Theorem _check_preferences_fails_iff (self : DatingMatchmaker) (u1 u2 : User) :
  bound_is_number (preferences u1) -> bound_is_number (preferences u2) ->
  (_check_preferences self u1 u2 = Ok false
   <-> exists loc1 loc2 d m,
         location (preferences u1) = Some loc1
         /\ location (preferences u2) = Some loc2
         /\ _calculate_distance loc1 loc2 = Ok d
         /\ (max_distance (preferences u1) = Some m
             \/ max_distance (preferences u2) = Some m)
         /\ fgt d m = true).
Proof. apply check_preferences_false. Qed.

(** X2 on two users five units apart, one of them accepting one unit. *)
Lemma _check_preferences_fails_iff_witness :
  _check_preferences distant (mkUser ones near) (mkUser ones far) = Ok false.
Proof.
  apply (_check_preferences_fails_iff distant (mkUser ones near)
           (mkUser ones far)); [reflexivity|exact I|].
  exists (0, 0)%float, (3, 4)%float, 5%float, 1%float.
  repeat split; try reflexivity. left. reflexivity.
Defined.

(** X3.  The check is monotone in a user's bound, the bounds being
    numbers: a pair that passes still passes, in either order of the
    two users, when one of the two raises the [max_distance], or drops
    it. *)
Theorem _check_preferences_monotone (self : DatingMatchmaker) (u1 u2 : User)
    (m : option float) :
  bound_is_number (preferences u1) -> bound_is_number (preferences u2) ->
  bound_is_number (preferences (with_max_distance u1 m)) ->
  bound_le (max_distance (preferences u1)) m ->
  _check_preferences self u1 u2 = Ok true ->
  _check_preferences self (with_max_distance u1 m) u2 = Ok true
  /\ _check_preferences self u2 (with_max_distance u1 m) = Ok true.
Proof.
  intros Hn1 Hn2 Hnm Hle Hpass.
  assert (H : _check_preferences self (with_max_distance u1 m) u2 = Ok true).
  { destruct (_check_preferences self (with_max_distance u1 m) u2)
      as [[|]|e] eqn:E; [reflexivity| |].
    - apply (check_preferences_false self _ _ Hnm Hn2) in E.
      destruct E as [l1 [l2 [d [x [H1 [H2 [Hd [Hx Hgt]]]]]]]].
      cbn [with_max_distance preferences location max_distance] in H1, Hx.
      assert (F : _check_preferences self u1 u2 = Ok false); [|congruence].
      apply (check_preferences_false self _ _ Hn1 Hn2).
      destruct Hx as [Hx|Hx].
      + subst m. destruct (max_distance (preferences u1)) as [x0|] eqn:E0;
          [|contradiction].
        cbn [bound_le] in Hle. exists l1, l2, d, x0.
        repeat split; auto. unfold fgt in *.
        apply ltb_cmp. apply (cmp_le_lt x0 x d);
          [now apply leb_cmp|now apply ltb_cmp].
      + exists l1, l2, d, x. repeat split; auto.
    - apply check_preferences_raise in E. destruct E as [l1 [l2 [H1 [H2 Hd]]]].
      cbn [with_max_distance preferences location] in H1.
      assert (F : _check_preferences self u1 u2 = Raise e); [|congruence].
      apply check_preferences_raise. eauto. }
  split; [exact H|]. now rewrite <- _check_preferences_sym.
Qed.

(** X3 for two users at one place: the first raises the bound from 1
    to 2. *)
Lemma _check_preferences_monotone_witness :
  bound_le (max_distance (preferences (mkUser ones near))) (Some 2%float)
  /\ _check_preferences two_alike (mkUser ones near) (mkUser ones near)
     = Ok true
  /\ _check_preferences two_alike
       (with_max_distance (mkUser ones near) (Some 2%float)) (mkUser ones near)
     = Ok true.
Proof.
  assert (Hle : bound_le (max_distance (preferences (mkUser ones near)))
                  (Some 2%float)) by reflexivity.
  assert (Hp : _check_preferences two_alike (mkUser ones near)
                 (mkUser ones near) = Ok true) by reflexivity.
  split; [exact Hle|split; [exact Hp|]].
  exact (proj1 (_check_preferences_monotone two_alike (mkUser ones near)
                  (mkUser ones near) (Some 2%float) eq_refl eq_refl eq_refl
                  Hle Hp)).
Defined.

(** ** What every object satisfies *)

Lemma reachable_config (self : DatingMatchmaker) :
  reachable self ->
  exists config, questions_config self = questions_config (__init__ config).
Proof.
  induction 1 as [config|self self' user_id a p _ IH Hadd].
  - now exists config.
  - destruct (Nat.eq_dec (length a) 100) as [Hlen|Hlen].
    + rewrite add_user_ok in Hadd by assumption.
      inversion Hadd; subst. exact IH.
    + rewrite add_user_raise in Hadd by assumption. discriminate.
Qed.

(** X4.  Every object obtained from the constructor by registrations
    has the configuration the constructor chose, which is never empty (an
    empty or absent argument gives the default), holds no user id twice,
    and holds exactly 100 answers for every registered user. *)
Theorem reachable_invariants (self : DatingMatchmaker) :
  reachable self ->
  questions_config self <> []
  /\ (exists config,
        questions_config self
        = match config with
          | Some (q :: c) => q :: c
          | _ => _default_question_config
          end)
  /\ dict_wf (users self)
  /\ (forall user_id u, registered self user_id u ->
        length (answers u) = 100%nat).
Proof.
  intros Hr. split; [now apply reachable_config_nonempty|split; [|split]].
  - destruct (reachable_config self Hr) as [config H]. now exists config.
  - now destruct (reachable_registry_ok self Hr).
  - intros user_id u. now apply registered_length.
Qed.

Lemma two_alike_reachable : reachable two_alike.
Proof.
  apply (reachable_add_user (register (__init__ None) 1 ones None) two_alike
           2 ones None); [|reflexivity].
  apply (reachable_add_user (__init__ None) _ 1 ones None); [|reflexivity].
  apply reachable_init.
Qed.

(** X4 on a registry of two users. *)
Lemma reachable_invariants_witness :
  reachable two_alike
  /\ questions_config two_alike <> []
  /\ dict_wf (users two_alike)
  /\ (forall user_id u, registered two_alike user_id u ->
        length (answers u) = 100%nat).
Proof.
  split; [exact two_alike_reachable|].
  destruct (reachable_invariants two_alike two_alike_reachable)
    as [H1 [_ [H3 H4]]].
  auto.
Defined.

(** ** The failures of a compatibility query *)

Lemma dealbreaker_step_raise (u1 u2 : User) (config : dict Question)
    (acc : result (list Z)) (e : exn) :
  (forall e', acc = Raise e' -> e' = IndexError) ->
  fold_left (dealbreaker_step u1 u2) config acc = Raise e -> e = IndexError.
Proof.
  revert acc; induction config as [|[q c] config IH]; intros acc Hacc; simpl.
  - intros H. now apply Hacc.
  - apply IH. intros e'. unfold dealbreaker_step.
    destruct acc as [d|e0]; cbn [bind]; [|now apply Hacc].
    destruct (MatchType_eqb (match_type c) dealbreaker); [|discriminate].
    destruct (np_get (answers u1) q) as [a|ea] eqn:Ea; cbn [bind].
    + destruct (np_get (answers u2) q) as [b|eb] eqn:Eb; cbn [bind].
      * destruct (fgt _ _); discriminate.
      * intros H; inversion H; subst. eapply np_get_raise; eauto.
    + intros H; inversion H; subst. eapply np_get_raise; eauto.
Qed.

Lemma _check_dealbreakers_raise (self : DatingMatchmaker) (u1 u2 : User)
    (e : exn) :
  _check_dealbreakers self u1 u2 = Raise e -> e = IndexError.
Proof.
  unfold _check_dealbreakers. apply dealbreaker_step_raise. discriminate.
Qed.

Lemma bind_raise {A B : Type} (c : result A) (k : A -> result B) (e : exn)
    (P : exn -> Prop) :
  (forall e', c = Raise e' -> P e') ->
  (forall a, c = Ok a -> k a = Raise e -> P e) ->
  bind c k = Raise e -> P e.
Proof.
  intros Hc Hk. destruct c as [a|e0]; cbn [bind].
  - now apply Hk.
  - intros H; inversion H; subst. now apply Hc.
Qed.

Lemma py_square_raise (x : float) (e : exn) :
  py_square x = Raise e -> e = ResultOutOfRange.
Proof.
  unfold py_square. destruct (_ && _); [|discriminate].
  intros H; now inversion H.
Qed.

Lemma _calculate_distance_raise (l1 l2 : float * float) (e : exn) :
  _calculate_distance l1 l2 = Raise e -> e = ResultOutOfRange.
Proof.
  unfold _calculate_distance.
  apply (bind_raise _ _ _ (fun e0 => e0 = ResultOutOfRange));
    [intros e'; apply py_square_raise|intros dx _].
  apply (bind_raise _ _ _ (fun e0 => e0 = ResultOutOfRange));
    [intros e'; apply py_square_raise|intros dy _].
  discriminate.
Qed.

Lemma _check_preferences_raise (self : DatingMatchmaker) (u1 u2 : User)
    (e : exn) :
  _check_preferences self u1 u2 = Raise e -> e = ResultOutOfRange.
Proof.
  intros H. apply check_preferences_raise in H.
  destruct H as [l1 [l2 [_ [_ H]]]]. now apply _calculate_distance_raise in H.
Qed.

Lemma cosine_raise (u v : list float) (w : option (list float)) (e : exn) :
  cosine u v w = Raise e -> e = NegativeWeights.
Proof.
  unfold cosine. destruct w as [w|]; cbn [bind]; [|discriminate].
  destruct (existsb _ w); cbn [bind]; [|discriminate].
  intros H; now inversion H.
Qed.

Lemma average_raise (a w : list float) (e : exn) :
  average a w = Raise e -> e = WeightsSumToZero.
Proof.
  unfold average. destruct (_ =? _)%float; [|discriminate].
  intros H; now inversion H.
Qed.

Lemma round_raise (x : float) (e : exn) :
  round x = Raise e -> e = NaNToInteger \/ e = InfinityToInteger.
Proof.
  unfold round. destruct (is_nan x); [intros H; inversion H; auto|].
  destruct (is_infinity x); [intros H; inversion H; auto|discriminate].
Qed.

Lemma total_score_of_raise (config : dict Question) (n w : float) (e : exn) :
  total_score_of config n w = Raise e -> e = FloatDivisionByZero.
Proof.
  unfold total_score_of.
  destruct (items_of similarity config), (items_of complementary config);
    try discriminate.
  destruct (w =? 0.0)%float; [|discriminate]. intros H; now inversion H.
Qed.

Lemma _calculate_similarity_raise (self : DatingMatchmaker) (u1 u2 : User)
    (e : exn) :
  _calculate_similarity self u1 u2 = Raise e -> library_failure e.
Proof.
  unfold _calculate_similarity.
  destruct (map fst (items_of similarity (questions_config self)));
    [discriminate|].
  apply (bind_raise _ _ _ library_failure);
    [intros e' H; apply np_take_raise in H; subst; red; auto|intros xs _].
  apply (bind_raise _ _ _ library_failure);
    [intros e' H; apply np_take_raise in H; subst; red; auto|intros ys _].
  apply (bind_raise _ _ _ library_failure);
    [intros e' H; apply cosine_raise in H; subst; red; auto 10|intros d _].
  discriminate.
Qed.

Lemma _calculate_complementarity_raise (self : DatingMatchmaker)
    (u1 u2 : User) (e : exn) :
  _calculate_complementarity self u1 u2 = Raise e -> library_failure e.
Proof.
  unfold _calculate_complementarity.
  destruct (map fst (items_of complementary (questions_config self)));
    [discriminate|].
  apply (bind_raise _ _ _ library_failure);
    [intros e' H; apply np_take_raise in H; subst; red; auto|intros xs _].
  apply (bind_raise _ _ _ library_failure);
    [intros e' H; apply np_take_raise in H; subst; red; auto|intros ys _].
  intros H. apply average_raise in H. subst. red. auto 10.
Qed.

Lemma round_failure (x : float) (e : exn) :
  round x = Raise e -> library_failure e.
Proof. intros H. apply round_raise in H. red. destruct H; auto 10. Qed.

Lemma category_loop_raise (cats : list (string * list Z)) (u1 u2 : User)
    (acc : list (string * Z)) (e : exn) :
  category_loop cats u1 u2 acc = Raise e -> library_failure e.
Proof.
  revert acc; induction cats as [|[c idx] cats IH]; intros acc;
    [discriminate|].
  cbn [category_loop].
  apply (bind_raise _ _ _ library_failure);
    [intros e' H; apply np_take_raise in H; subst; red; auto|intros xs _].
  apply (bind_raise _ _ _ library_failure);
    [intros e' H; apply np_take_raise in H; subst; red; auto|intros ys _].
  apply (bind_raise _ _ _ library_failure);
    [intros e' H; apply cosine_raise in H; subst; red; auto 10|intros d _].
  apply (bind_raise _ _ _ library_failure);
    [intros e'; apply round_failure|intros s _].
  apply IH.
Qed.

(** The failures of a query on two registered users. *)
Lemma compat_registered_raise (self : DatingMatchmaker) (x y : Z)
    (u1 u2 : User) (e : exn) :
  registered self x u1 -> registered self y u2 ->
  compat self x y = Raise e -> library_failure e.
Proof.
  unfold registered, compat, calculate_compatibility, mbind, get_self,
    lift_result, dict_in. intros Hx Hy. cbn [fst]. rewrite Hx, Hy.
  cbn [negb orb].
  apply (bind_raise _ _ _ library_failure);
    [intros e' H; apply _check_dealbreakers_raise in H; subst; red; auto|].
  intros [|d ds] _; [|discriminate].
  apply (bind_raise _ _ _ library_failure);
    [intros e' H; apply _check_preferences_raise in H; subst; red; auto|].
  intros [|] _; cbn [negb]; [|discriminate].
  apply (bind_raise _ _ _ library_failure);
    [intros e1; apply _calculate_similarity_raise|intros sim _].
  apply (bind_raise _ _ _ library_failure);
    [intros e2; apply _calculate_complementarity_raise|intros comp _].
  apply (bind_raise _ _ _ library_failure);
    [intros e3 H; apply total_score_of_raise in H; subst; red; auto 10|].
  intros t _.
  apply (bind_raise _ _ _ library_failure);
    [intros e3; apply round_failure|intros p _].
  apply (bind_raise _ _ _ library_failure);
    [intros e4; apply round_failure|intros sp _].
  apply (bind_raise _ _ _ library_failure);
    [intros e5; apply round_failure|intros cp _].
  apply (bind_raise _ _ _ library_failure);
    [intros e6; apply category_loop_raise|].
  discriminate.
Qed.

Lemma library_failure_found (e : exn) :
  library_failure e -> e <> UserNotFound.
Proof.
  unfold library_failure.
  intros [H|[H|[H|[H|[H|[H|H]]]]]]; subst; discriminate.
Qed.

(** X5.  [calculate_compatibility] raises "User not found in database"
    exactly when one of the two ids is not registered.  Its other
    failures are those of the libraries and of the interpreter: the
    [IndexError] of an answer vector, the [OverflowError] of a squared
    coordinate difference, SciPy's [ValueError] for a negative weight,
    the [ZeroDivisionError] of [np.average] and of the division by the
    total weight, and the [ValueError] and [OverflowError] of [round] on
    NaN and on an infinity. *)
Theorem calculate_compatibility_failures (self : DatingMatchmaker) (x y : Z) :
  (fst (calculate_compatibility x y self) = Raise UserNotFound
   <-> dict_in x (users self) = false \/ dict_in y (users self) = false)
  /\ (forall e, fst (calculate_compatibility x y self) = Raise e ->
        e = UserNotFound
        \/ e = IndexError \/ e = ResultOutOfRange \/ e = NegativeWeights
        \/ e = WeightsSumToZero \/ e = FloatDivisionByZero
        \/ e = NaNToInteger \/ e = InfinityToInteger).
Proof.
  assert (Hreg : forall k, dict_in k (users self) = true ->
                   exists u, registered self k u).
  { intros k. unfold dict_in, registered.
    destruct (dict_get (users self) k) as [u|]; [eauto|discriminate]. }
  assert (Hun : dict_in x (users self) = false
                \/ dict_in y (users self) = false ->
                fst (calculate_compatibility x y self) = Raise UserNotFound).
  { intros H. unfold calculate_compatibility, mbind, get_self, lift_result.
    cbn [fst].
    destruct H as [-> | ->]; cbn [negb orb]; [reflexivity|].
    now rewrite orb_true_r. }
  destruct (dict_in x (users self)) eqn:Ex, (dict_in y (users self)) eqn:Ey;
    try (split; [split; [auto|intros _; apply Hun; auto]
                |intros e He; rewrite Hun in He by auto;
                 inversion He; auto]).
  destruct (Hreg x Ex) as [u1 Hx]. destruct (Hreg y Ey) as [u2 Hy].
  split.
  - split; [|intros [H|H]; discriminate].
    intros H. apply (compat_registered_raise self x y u1 u2 _ Hx Hy) in H.
    now apply library_failure_found in H.
  - intros e He. right.
    exact (compat_registered_raise self x y u1 u2 e Hx Hy He).
Qed.

(** ** The shape of an outcome *)

Lemma category_loop_names (cats : list (string * list Z)) (u1 u2 : User)
    (acc scores : list (string * Z)) :
  category_loop cats u1 u2 acc = Ok scores ->
  map fst scores = map fst acc ++ map fst cats.
Proof.
  revert acc; induction cats as [|[c idx] cats IH]; intros acc.
  - simpl. intros H; inversion H. now rewrite app_nil_r.
  - cbn [category_loop].
    destruct (np_take (answers u1) idx); cbn [bind]; [|discriminate].
    destruct (np_take (answers u2) idx); cbn [bind]; [|discriminate].
    destruct (cosine _ _ None); cbn [bind]; [|discriminate].
    destruct (round _) as [s|]; cbn [bind]; [|discriminate].
    intros H. apply IH in H. rewrite H, map_app, <- app_assoc. reflexivity.
Qed.

(** X7.  What a returned pair [(score, breakdown)] looks like, for
    registered users with 100 answers and question indices in [0, 100):
    a dealbreaker breakdown carries score 0 and the violated
    dealbreakers, of which there is one at least; a preference mismatch
    carries score 0 and occurs only when no dealbreaker is violated; a
    matched breakdown occurs only when both checks pass, its
    [overall_score] is the returned score and its category scores are
    those of the four categories, in their order.  A dealbreaker is
    violated when the binary64 difference of the two answers compares
    above the binary64 0.7. *)
Theorem calculate_compatibility_outcome (self : DatingMatchmaker) (x y : Z)
    (u1 u2 : User) (percentage : Z) (breakdown : Breakdown) :
  registered self x u1 -> registered self y u2 ->
  length (answers u1) = 100%nat -> length (answers u2) = 100%nat ->
  indices_ok (questions_config self) ->
  calculate_compatibility x y self = (Ok (percentage, breakdown), self) ->
  let V := violated (questions_config self) (answers u1) (answers u2) in
  match breakdown with
  | Vetoed dealbreakers =>
      percentage = 0%Z /\ dealbreakers = V /\ V <> []
  | Mismatch reason =>
      percentage = 0%Z /\ reason = "preference_mismatch"%string
      /\ V = [] /\ _check_preferences self u1 u2 = Ok false
  | Matched overall _ _ category_scores =>
      percentage = overall /\ V = []
      /\ _check_preferences self u1 u2 = Ok true
      /\ map fst category_scores
         = ["values"; "lifestyle"; "personality"; "interests"]%string
  end.
Proof.
  intros Hx Hy Hl1 Hl2 Hidx Hcall V.
  unfold calculate_compatibility, mbind, get_self, lift_result, dict_in
    in Hcall.
  unfold registered in Hx, Hy. rewrite Hx, Hy in Hcall.
  cbn [negb orb] in Hcall.
  rewrite (_check_dealbreakers_ok self u1 u2 Hl1 Hl2 Hidx) in Hcall.
  fold V in Hcall. cbn [bind] in Hcall.
  destruct V as [|d ds] eqn:HV.
  - destruct (_check_preferences self u1 u2) as [[|]|] eqn:Hpref;
      cbn [bind negb] in Hcall; [| |discriminate].
    + destruct (_calculate_similarity self u1 u2) as [sim|];
        cbn [bind] in Hcall; [|discriminate].
      destruct (_calculate_complementarity self u1 u2) as [comp|];
        cbn [bind] in Hcall; [|discriminate].
      destruct (total_score_of _ _ _) as [t|]; cbn [bind] in Hcall;
        [|discriminate].
      destruct (round _) as [p|]; cbn [bind] in Hcall; [|discriminate].
      destruct (round _) as [sp|]; cbn [bind] in Hcall; [|discriminate].
      destruct (round _) as [cp|]; cbn [bind] in Hcall; [|discriminate].
      destruct (_calculate_category_scores self u1 u2) as [cats|] eqn:Hcats;
        cbn [bind] in Hcall; [|discriminate].
      inversion Hcall; subst. repeat split.
      apply category_loop_names in Hcats. exact Hcats.
    + inversion Hcall; subst. repeat split.
  - inversion Hcall; subst. repeat split. discriminate.
Qed.

(** X7 on two users who answer 1 to every question. *)
Lemma calculate_compatibility_outcome_witness :
  calculate_compatibility 1 2 two_alike
  = (Ok (67%Z, Matched 67 100 0 all_hundred), two_alike)
  /\ violated (questions_config two_alike) ones ones = []
  /\ map fst all_hundred
     = ["values"; "lifestyle"; "personality"; "interests"]%string.
Proof.
  assert (H : calculate_compatibility 1 2 two_alike
              = (Ok (67%Z, Matched 67 100 0 all_hundred), two_alike))
    by (vm_compute; reflexivity).
  split; [exact H|].
  destruct (calculate_compatibility_outcome two_alike 1 2 (plain ones)
              (plain ones) 67 (Matched 67 100 0 all_hundred) eq_refl eq_refl
              eq_refl eq_refl default_indices_ok H) as [_ [HV [_ Hn]]].
  split; assumption.
Defined.


(** ** Registries of two users *)

Lemma one_two_wf : dict_wf (users two_alike).
Proof.
  unfold dict_wf. simpl. repeat constructor; simpl; intuition discriminate.
Qed.


(** ** The entries of a ranking *)

Lemma compat_ok_registered (self : DatingMatchmaker) (x y : Z)
    (r : Z * Breakdown) :
  compat self x y = Ok r ->
  dict_in x (users self) = true /\ dict_in y (users self) = true.
Proof.
  unfold compat, calculate_compatibility, mbind, get_self, lift_result.
  cbn [fst].
  destruct (dict_in x (users self)), (dict_in y (users self));
    cbn [negb orb]; try discriminate.
  auto.
Qed.

(** A positive score comes with a matched breakdown only. *)
Lemma compat_positive_matched (self : DatingMatchmaker) (x y s : Z)
    (b : Breakdown) :
  compat self x y = Ok (s, b) -> (0 < s)%Z ->
  exists sim comp cats, b = Matched s sim comp cats.
Proof.
  unfold compat, calculate_compatibility, mbind, get_self, lift_result.
  cbn [fst]. intros H Hs.
  destruct (negb (dict_in x (users self)) || negb (dict_in y (users self)));
    [discriminate|].
  destruct (dict_get (users self) x) as [u1|]; [|discriminate].
  destruct (dict_get (users self) y) as [u2|]; [|discriminate].
  destruct (_check_dealbreakers self u1 u2) as [[|d ds]|e]; cbn [bind] in H;
    [|inversion H; lia|discriminate].
  destruct (_check_preferences self u1 u2) as [[|]|]; cbn [bind negb] in H;
    [|inversion H; lia|discriminate].
  destruct (_calculate_similarity self u1 u2) as [sim|]; cbn [bind] in H;
    [|discriminate].
  destruct (_calculate_complementarity self u1 u2) as [comp|];
    cbn [bind] in H; [|discriminate].
  destruct (total_score_of _ _ _) as [t|]; cbn [bind] in H; [|discriminate].
  destruct (round _) as [p|]; cbn [bind] in H; [|discriminate].
  destruct (round _) as [sp|]; cbn [bind] in H; [|discriminate].
  destruct (round _) as [cp|]; cbn [bind] in H; [|discriminate].
  destruct (_calculate_category_scores self u1 u2) as [cats|];
    cbn [bind] in H; [|discriminate].
  inversion H; subst. now exists sp, cp, cats.
Qed.

Lemma score_all_keys (self : DatingMatchmaker) (x : Z) (ids : list Z) :
  forall ms, score_all self x ids = Ok ms ->
             map (fun m : Match => fst (fst m)) ms = ids.
Proof.
  induction ids as [|k ids IH]; intros ms; cbn [score_all].
  - intros H; inversion H; reflexivity.
  - destruct (compat self x k) as [[s b]|e]; cbn [bind]; [|discriminate].
    destruct (score_all self x ids) as [ms'|e]; cbn [bind]; [|discriminate].
    intros H; inversion H; subst. cbn [map fst snd]. now rewrite (IH ms').
Qed.

Lemma score_all_In (self : DatingMatchmaker) (x : Z) (ids : list Z) :
  forall ms, score_all self x ids = Ok ms ->
  forall k s b,
    In (k, s, b) ms <-> In k ids /\ compat self x k = Ok (s, b).
Proof.
  induction ids as [|k0 ids IH]; intros ms; cbn [score_all].
  - intros H; inversion H; subst. simpl. tauto.
  - destruct (compat self x k0) as [[s0 b0]|e] eqn:Hc; cbn [bind];
      [|discriminate].
    destruct (score_all self x ids) as [ms'|e]; cbn [bind]; [|discriminate].
    intros H; inversion H; subst. cbn [fst snd]. intros k s b.
    specialize (IH ms' eq_refl k s b). split.
    + intros [E|Hin].
      * inversion E; subst. split; [now left|exact Hc].
      * apply IH in Hin. split; [now right|tauto].
    + intros [[->|Hin] Hk].
      * left. rewrite Hc in Hk. now inversion Hk.
      * right. apply IH. now split.
Qed.

Lemma score_all_raise (self : DatingMatchmaker) (x : Z) (ids : list Z)
    (k : Z) (e : exn) :
  In k ids -> compat self x k = Raise e ->
  exists e', score_all self x ids = Raise e'.
Proof.
  intros Hin Hk.
  destruct (score_all self x ids) as [ms|e'] eqn:Hs; [|now exists e'].
  pose proof (score_all_keys self x ids ms Hs) as Hkeys.
  rewrite <- Hkeys in Hin. apply in_map_iff in Hin.
  destruct Hin as [[[k' s] b] [E Hin]]. cbn [fst] in E. subst k'.
  apply (score_all_In self x ids ms Hs) in Hin. destruct Hin as [_ Hok].
  congruence.
Qed.

Lemma score_all_total (self : DatingMatchmaker) (x : Z) (ids : list Z) :
  (forall k, In k ids -> exists r, compat self x k = Ok r) ->
  exists ms, score_all self x ids = Ok ms.
Proof.
  induction ids as [|k ids IH]; intros H; cbn [score_all]; [now exists []|].
  destruct (H k (or_introl eq_refl)) as [r Hr]. rewrite Hr. cbn [bind].
  destruct IH as [ms Hms]; [intros j Hj; apply H; now right|].
  rewrite Hms. cbn [bind]. eauto.
Qed.

Lemma others_In (self : DatingMatchmaker) (x k : Z) :
  In k (others self x) <-> dict_in k (users self) = true /\ k <> x.
Proof.
  unfold others. rewrite filter_In, dict_in_true.
  destruct (Z.eqb_spec k x); cbn [negb]; split; intros [H1 H2];
    try (split; [exact H1|]); congruence.
Qed.

Lemma slice_to_prefix {A : Type} (l : list A) (n : Z) :
  exists rest, l = slice_to l n ++ rest.
Proof.
  unfold slice_to.
  destruct (0 <=? n)%Z; eexists; symmetry; apply firstn_skipn.
Qed.

Lemma slice_to_all {A : Type} (l : list A) (n : Z) :
  (Z.of_nat (length l) <= n)%Z -> slice_to l n = l.
Proof.
  intros H. unfold slice_to. destruct (Z.leb_spec 0 n); [|lia].
  apply firstn_all2. lia.
Qed.

(** A returned ranking is a prefix of the sorted list of the positive
    entries of all other users. *)
Lemma find_matches_ok (self : DatingMatchmaker) (x n : Z) (ms : list Match) :
  find_matches x n self = (Ok ms, self) ->
  dict_in x (users self) = true
  /\ exists all,
       score_all self x (others self x) = Ok all
       /\ ms = slice_to (sort_desc (filter positive all)) n.
Proof.
  rewrite find_matches_run.
  destruct (dict_in x (users self)); [|discriminate].
  destruct (score_all self x (others self x)) as [all|e]; cbn [bind];
    [|discriminate].
  intros H; inversion H; subst. eauto.
Qed.

Lemma ranking_In (self : DatingMatchmaker) (x : Z) (all : list Match) :
  score_all self x (others self x) = Ok all ->
  forall k s b,
    In (k, s, b) (sort_desc (filter positive all))
    <-> k <> x /\ dict_in k (users self) = true
        /\ compat self x k = Ok (s, b) /\ (0 < s)%Z.
Proof.
  intros Hall k s b.
  assert (Hmem : In (k, s, b) (sort_desc (filter positive all))
                 <-> In (k, s, b) (filter positive all)).
  { split; apply Permutation_in;
      [apply sort_desc_perm|symmetry; apply sort_desc_perm]. }
  rewrite Hmem, filter_In, (score_all_In self x _ all Hall), others_In.
  unfold positive, score. cbn [fst snd]. rewrite Z.gtb_ltb, Z.ltb_lt. tauto.
Qed.

Lemma ranking_length (self : DatingMatchmaker) (x : Z) (all : list Match) :
  score_all self x (others self x) = Ok all ->
  (length (sort_desc (filter positive all)) <= length (users self))%nat.
Proof.
  intros Hall.
  rewrite (Permutation_length (sort_desc_perm (filter positive all))).
  pose proof (filter_length_le positive all) as H1.
  pose proof (score_all_keys self x _ all Hall) as Hk.
  apply (f_equal (@length Z)) in Hk. rewrite length_map in Hk.
  unfold others in Hk.
  pose proof (filter_length_le (fun k => negb (Z.eqb k x))
                (dict_keys (users self))) as H2.
  unfold dict_keys in *. rewrite length_map in H2. lia.
Qed.

Lemma find_matches_In (self : DatingMatchmaker) (x n : Z) (ms : list Match)
    (k s : Z) (b : Breakdown) :
  find_matches x n self = (Ok ms, self) -> In (k, s, b) ms ->
  k <> x /\ dict_in k (users self) = true
  /\ compat self x k = Ok (s, b) /\ (0 < s)%Z.
Proof.
  intros Hf Hin. destruct (find_matches_ok self x n ms Hf) as [_ [all [Hall ->]]].
  apply (ranking_In self x all Hall).
  destruct (slice_to_prefix (sort_desc (filter positive all)) n) as [rest E].
  rewrite E. apply in_or_app. now left.
Qed.

Lemma find_matches_complete (self : DatingMatchmaker) (x n : Z)
    (ms : list Match) (k s : Z) (b : Breakdown) :
  find_matches x n self = (Ok ms, self) ->
  (Z.of_nat (length (users self)) <= n)%Z ->
  k <> x -> compat self x k = Ok (s, b) -> (0 < s)%Z ->
  In (k, s, b) ms.
Proof.
  intros Hf Hn Hk Hc Hs.
  destruct (find_matches_ok self x n ms Hf) as [_ [all [Hall ->]]].
  rewrite slice_to_all
    by (pose proof (ranking_length self x all Hall); lia).
  apply (ranking_In self x all Hall).
  destruct (compat_ok_registered self x k _ Hc). tauto.
Qed.

Lemma StronglySorted_prefix {A : Type} (R : A -> A -> Prop) (l r : list A) :
  StronglySorted R (l ++ r) -> StronglySorted R l.
Proof.
  induction l as [|a l IH]; cbn [app]; intros H; [constructor|].
  inversion H as [|? ? Hs Hall]; subst. constructor; [now apply IH|].
  apply Forall_app in Hall. tauto.
Qed.

Lemma NoDup_prefix {A : Type} (l r : list A) : NoDup (l ++ r) -> NoDup l.
Proof.
  induction l as [|a l IH]; cbn [app]; intros H; [constructor|].
  inversion H as [|? ? Hnot Hnd]; subst. constructor; [|now apply IH].
  intros Hin. apply Hnot. apply in_or_app. now left.
Qed.

(** Discarding the entries of non-positive score lists no user twice. *)
Lemma positive_ids_NoDup (ms : list Match) :
  NoDup (map (fun m : Match => fst (fst m)) ms) ->
  NoDup (map (fun m : Match => fst (fst m)) (filter positive ms)).
Proof.
  intros H. induction ms as [|m ms IH]; cbn [map filter]; [constructor|].
  cbn [map] in H. apply NoDup_cons_iff in H. destruct H as [Hnot Hnd].
  destruct (positive m); [|now apply IH].
  cbn [map]. apply NoDup_cons; [|now apply IH].
  intros Hin. apply Hnot. apply in_map_iff in Hin.
  destruct Hin as [m' [E Hin]]. apply filter_In in Hin.
  apply in_map_iff. exists m'. tauto.
Qed.

(** X11.  What a returned ranking holds, for every [top_n] (negative
    ones too) in a registry with no id twice: every entry is a
    registered user other than the asking one, with the score and
    breakdown [calculate_compatibility] returns for the pair, the score
    positive and the breakdown a matched one whose [overall_score] is that
    score (so no vetoed and no mismatched pair is ever listed); no user is
    listed twice; the scores descend; and when [top_n] is at least the
    number of users, every other user of positive score is listed. *)
Theorem find_matches_entries (self : DatingMatchmaker) (user_id top_n : Z)
    (ms : list Match) :
  dict_wf (users self) ->
  find_matches user_id top_n self = (Ok ms, self) ->
  (forall k s b, In (k, s, b) ms ->
     k <> user_id /\ dict_in k (users self) = true
     /\ compat self user_id k = Ok (s, b) /\ (0 < s)%Z
     /\ exists sim comp cats, b = Matched s sim comp cats)
  /\ NoDup (map (fun m : Match => fst (fst m)) ms)
  /\ StronglySorted desc ms
  /\ ((Z.of_nat (length (users self)) <= top_n)%Z ->
      forall k s b,
        k <> user_id -> compat self user_id k = Ok (s, b) -> (0 < s)%Z ->
        In (k, s, b) ms).
Proof.
  intros Hwf Hf. split; [|split; [|split]].
  - intros k s b Hin.
    destruct (find_matches_In self user_id top_n ms k s b Hf Hin)
      as [H1 [H2 [H3 H4]]].
    repeat (split; [assumption|]).
    now apply (compat_positive_matched self user_id k).
  - destruct (find_matches_ok self user_id top_n ms Hf) as [_ [all [Hall ->]]].
    destruct (slice_to_prefix (sort_desc (filter positive all)) top_n)
      as [rest E].
    assert (Hnd : NoDup (map (fun m : Match => fst (fst m))
                           (sort_desc (filter positive all)))).
    { apply (Permutation_NoDup
               (l := map (fun m : Match => fst (fst m)) (filter positive all))).
      - apply Permutation_map. symmetry. apply sort_desc_perm.
      - apply positive_ids_NoDup.
        rewrite (score_all_keys self user_id _ all Hall).
        unfold others. apply NoDup_filter. exact Hwf. }
    rewrite E, map_app in Hnd. now apply NoDup_prefix in Hnd.
  - destruct (find_matches_ok self user_id top_n ms Hf) as [_ [all [Hall ->]]].
    destruct (slice_to_prefix (sort_desc (filter positive all)) top_n)
      as [rest E].
    pose proof (sort_desc_sorted (filter positive all)) as Hs.
    rewrite E in Hs. now apply StronglySorted_prefix in Hs.
  - intros Hn k s b. now apply (find_matches_complete self user_id top_n).
Qed.

Lemma two_alike_ranking :
  find_matches 1 10 two_alike
  = (Ok [(2%Z, 67%Z, Matched 67 100 0 all_hundred)], two_alike).
Proof. vm_compute. reflexivity. Qed.

(** X11 on two users who answer 1 to every question. *)
Lemma find_matches_entries_witness :
  find_matches 1 10 two_alike
  = (Ok [(2%Z, 67%Z, Matched 67 100 0 all_hundred)], two_alike)
  /\ NoDup (map (fun m : Match => fst (fst m))
              [(2%Z, 67%Z, Matched 67 100 0 all_hundred)])
  /\ StronglySorted desc [(2%Z, 67%Z, Matched 67 100 0 all_hundred)].
Proof.
  split; [exact two_alike_ranking|].
  destruct (find_matches_entries two_alike 1 10 _ one_two_wf
              two_alike_ranking) as [_ [H2 [H3 _]]].
  split; assumption.
Defined.


(** ** The batch matrix, entry by entry *)

(** X13.  [batch_processing] on a registry with no id twice either
    fails with the failure of [calculate_compatibility] on a pair of
    distinct registered users, taken with the user registered first as
    first argument, or returns a matrix with an entry for every ordered
    pair of distinct registered users, no self-pair and no other entry,
    in which [matrix[a][b]] and [matrix[b][a]] are one value: what
    [calculate_compatibility] returns for the pair with the user
    registered first as first argument. *)
Theorem batch_processing_in_order (self : DatingMatchmaker) :
  dict_wf (users self) ->
  match fst (batch_processing self) with
  | Ok matrix =>
      forall a b,
        (In a (dict_keys (users self)) -> In b (dict_keys (users self)) ->
         a <> b ->
         exists v, matrix_get matrix a b = Some v
                   /\ matrix_get matrix b a = Some v
                   /\ in_order self a b = Ok v)
        /\ matrix_get matrix a a = None
        /\ (matrix_get matrix a b <> None ->
            In a (dict_keys (users self)) /\ In b (dict_keys (users self)))
  | Raise e =>
      exists a b,
        In a (dict_keys (users self)) /\ In b (dict_keys (users self))
        /\ a <> b /\ in_order self a b = Raise e
  end.
Proof. apply batch_processing_outcome. Qed.

(** X13 on the two users whose score depends on their order: both
    entries hold the score of the pair taken in registration order. *)
Lemma batch_processing_in_order_witness :
  exists matrix v,
    fst (batch_processing uneven) = Ok matrix
    /\ matrix_get matrix 1 2 = Some v
    /\ matrix_get matrix 2 1 = Some v
    /\ fst (calculate_compatibility 1 2 uneven) = Ok v
    /\ fst v = 14%Z.
Proof.
  assert (Hwf : dict_wf (users uneven)).
  { unfold dict_wf. simpl. repeat constructor; simpl; intuition discriminate. }
  pose proof (batch_processing_in_order uneven Hwf) as H.
  destruct (fst (batch_processing uneven)) as [matrix|e] eqn:E;
    [|vm_compute in E; discriminate].
  destruct (H 1%Z 2%Z) as [H12 _].
  destruct H12 as [v [Hab [Hba Hv]]];
    [simpl; auto|simpl; auto|discriminate|].
  exists matrix, v. repeat split; try assumption.
  assert (Hc : in_order uneven 1 2
               = Ok (14%Z, Matched 14 100 100 all_hundred))
    by (vm_compute; reflexivity).
  rewrite Hc in Hv. inversion Hv. reflexivity.
Defined.

(** ** Registrations and the other users *)

(** The outcome for a pair reads the configuration and the two
    records. *)
Lemma compat_ext (s1 s2 : DatingMatchmaker) (x y : Z) :
  questions_config s1 = questions_config s2 ->
  dict_get (users s1) x = dict_get (users s2) x ->
  dict_get (users s1) y = dict_get (users s2) y ->
  compat s1 x y = compat s2 x y.
Proof.
  intros Hc Hx Hy.
  unfold compat, calculate_compatibility, mbind, get_self, lift_result,
    dict_in.
  cbn [fst]. rewrite Hx, Hy.
  unfold _check_dealbreakers, _check_preferences, _calculate_similarity,
    _calculate_complementarity, _calculate_category_scores.
  rewrite Hc. reflexivity.
Qed.

Lemma register_config (self : DatingMatchmaker) (z : Z) (a : list float)
    (p : option Preferences) :
  questions_config (register self z a p) = questions_config self.
Proof.
  unfold register. destruct (Nat.eq_dec (length a) 100) as [H|H].
  - now rewrite add_user_ok.
  - now rewrite add_user_raise.
Qed.

Lemma register_get_other (self : DatingMatchmaker) (z : Z) (a : list float)
    (p : option Preferences) (k : Z) :
  k <> z ->
  dict_get (users (register self z a p)) k = dict_get (users self) k.
Proof.
  intros Hk. unfold register. destruct (Nat.eq_dec (length a) 100) as [H|H].
  - rewrite add_user_ok by exact H. cbn [snd users].
    now apply dict_get_set_neq.
  - now rewrite add_user_raise.
Qed.

Lemma register_compat (self : DatingMatchmaker) (z : Z) (a : list float)
    (p : option Preferences) (x y : Z) :
  x <> z -> y <> z ->
  compat (register self z a p) x y = compat self x y.
Proof.
  intros Hx Hy. apply compat_ext;
    [apply register_config|now apply register_get_other..].
Qed.

(** X14.  A call of [add_user] for the id [z], accepted or refused,
    for a new id or a registered one, changes the outcome of
    [calculate_compatibility] for no pair of other ids: the same score
    and breakdown, or the same exception. *)
Theorem add_user_keeps_other_pairs (self : DatingMatchmaker) (z : Z)
    (a : list float) (p : option Preferences) (x y : Z) :
  x <> z -> y <> z ->
  fst (calculate_compatibility x y (snd (add_user z a p self)))
  = fst (calculate_compatibility x y self).
Proof. intros Hx Hy. now apply (register_compat self z a p x y). Qed.

(** X14 on a third user joining two users who answer 1 everywhere. *)
Lemma add_user_keeps_other_pairs_witness :
  fst (calculate_compatibility 1 2 (snd (add_user 3 zeros None two_alike)))
  = Ok (67%Z, Matched 67 100 0 all_hundred).
Proof.
  rewrite (add_user_keeps_other_pairs two_alike 3 zeros None 1 2)
    by discriminate.
  vm_compute. reflexivity.
Defined.

(** X15.  Registering a new user takes no match away: every entry of a
    user's ranking is still an entry, with the same score and breakdown,
    of the ranking after the registration of an id that was not
    registered, when that ranking succeeds and is not cut ([top_n] at
    least the number of users). *)
Theorem add_user_keeps_matches (self : DatingMatchmaker) (z : Z)
    (a : list float) (p : option Preferences) (x n n' : Z)
    (ms ms' : list Match) :
  dict_in z (users self) = false ->
  find_matches x n self = (Ok ms, self) ->
  find_matches x n' (register self z a p)
  = (Ok ms', register self z a p) ->
  (Z.of_nat (length (users (register self z a p))) <= n')%Z ->
  forall m, In m ms -> In m ms'.
Proof.
  intros Hz Hf Hf' Hn [[k s] b] Hin.
  destruct (find_matches_ok self x n ms Hf) as [Hx _].
  destruct (find_matches_In self x n ms k s b Hf Hin) as [Hne [Hk [Hc Hs]]].
  apply (find_matches_complete _ x n' ms' k s b Hf' Hn Hne); [|exact Hs].
  rewrite register_compat; [exact Hc|congruence|congruence].
Qed.

Lemma three_alike_ranking :
  find_matches 1 10 three_alike
  = (Ok [(2%Z, 67%Z, Matched 67 100 0 all_hundred);
         (3%Z, 67%Z, Matched 67 100 0 all_hundred)], three_alike).
Proof. vm_compute. reflexivity. Qed.

(** X15 on a third user joining two users who answer 1 everywhere. *)
Lemma add_user_keeps_matches_witness :
  find_matches 1 10 two_alike
  = (Ok [(2%Z, 67%Z, Matched 67 100 0 all_hundred)], two_alike)
  /\ find_matches 1 10 three_alike
     = (Ok [(2%Z, 67%Z, Matched 67 100 0 all_hundred);
            (3%Z, 67%Z, Matched 67 100 0 all_hundred)], three_alike)
  /\ forall m, In m [(2%Z, 67%Z, Matched 67 100 0 all_hundred)] ->
       In m [(2%Z, 67%Z, Matched 67 100 0 all_hundred);
             (3%Z, 67%Z, Matched 67 100 0 all_hundred)].
Proof.
  split; [exact two_alike_ranking|split; [exact three_alike_ranking|]].
  apply (add_user_keeps_matches two_alike 3 ones None 1 10 10 _ _
           eq_refl two_alike_ranking three_alike_ranking).
  simpl. lia.
Defined.

(** ** Queries and the object *)

(** X16.  [calculate_compatibility], [find_matches] and
    [batch_processing] leave the registry and the configuration as they
    were, whether they return or raise. *)
Theorem queries_leave_object_unchanged (self : DatingMatchmaker)
    (x y top_n : Z) :
  snd (calculate_compatibility x y self) = self
  /\ snd (find_matches x top_n self) = self
  /\ snd (batch_processing self) = self.
Proof.
  split; [reflexivity|split].
  - apply find_matches_state.
  - apply batch_processing_state.
Qed.

(** ** What does not depend on the order of the two users *)

(** Two successive fallible reads of arrays fail alike in either order. *)
Lemma bind2_swap {A B : Type} (c1 c2 : result A) (k : A -> A -> result B) :
  (forall e, c1 = Raise e -> e = IndexError) ->
  (forall e, c2 = Raise e -> e = IndexError) ->
  (x <- c1 ;; y <- c2 ;; k x y) = (y <- c2 ;; x <- c1 ;; k x y).
Proof.
  intros H1 H2.
  destruct c1 as [x|e1], c2 as [y|e2]; simpl; auto.
  rewrite (H1 e1 eq_refl), (H2 e2 eq_refl); reflexivity.
Qed.

Lemma np_multiply_comm (u v : list float) : np_multiply u v = np_multiply v u.
Proof.
  revert v; induction u as [|x u IH]; intros [|y v]; simpl; try reflexivity.
  now rewrite IH, mul_comm.
Qed.

Lemma cosine_unweighted_sym (u v : list float) :
  cosine u v None = cosine v u None.
Proof.
  unfold cosine, np_dot. cbn [bind].
  now rewrite (np_multiply_comm u v),
    (mul_comm (np_sum (np_multiply u u))).
Qed.

Lemma abs_np_subtract_sym (u v : list float) :
  map abs (np_subtract u v) = map abs (np_subtract v u).
Proof.
  revert v; induction u as [|x u IH]; intros [|y v]; simpl; try reflexivity.
  now rewrite IH, abs_sub_swap.
Qed.

Section Symmetry.
Variable self : DatingMatchmaker.
Variables user1 user2 : User.

Lemma _check_dealbreakers_sym :
  _check_dealbreakers self user1 user2 = _check_dealbreakers self user2 user1.
Proof.
  unfold _check_dealbreakers.
  generalize (Ok (@nil Z)) as acc.
  induction (questions_config self) as [|[q c] cfg IH]; intros acc;
    simpl; [reflexivity|].
  rewrite IH. f_equal.
  destruct acc as [d|e]; simpl; [|reflexivity].
  destruct (MatchType_eqb (match_type c) dealbreaker); [|reflexivity].
  rewrite bind2_swap by (intros ?; apply np_get_raise).
  destruct (np_get (answers user2) q) as [b|]; simpl; [|reflexivity].
  destruct (np_get (answers user1) q) as [a|]; simpl; [|reflexivity].
  rewrite (abs_sub_swap a b); reflexivity.
Qed.

Lemma _calculate_complementarity_sym :
  _calculate_complementarity self user1 user2
  = _calculate_complementarity self user2 user1.
Proof.
  unfold _calculate_complementarity.
  destruct (map fst (items_of complementary (questions_config self)))
    as [|i idx]; [reflexivity|].
  rewrite bind2_swap by (intros ?; apply np_take_raise).
  destruct (np_take (answers user2) (i :: idx)); [|reflexivity].
  destruct (np_take (answers user1) (i :: idx)); [|reflexivity].
  cbn [bind]. now rewrite abs_np_subtract_sym.
Qed.

Lemma category_loop_sym (cats : list (string * list Z))
    (acc : list (string * Z)) :
  category_loop cats user1 user2 acc = category_loop cats user2 user1 acc.
Proof.
  revert acc; induction cats as [|[c idx] cats IH]; intros acc;
    [reflexivity|].
  cbn [category_loop].
  rewrite bind2_swap by (intros ?; apply np_take_raise).
  destruct (np_take (answers user2) idx); [|reflexivity].
  destruct (np_take (answers user1) idx); [|reflexivity].
  cbn [bind]. rewrite cosine_unweighted_sym.
  destruct (cosine _ _ None); [|reflexivity]. cbn [bind].
  destruct (round _); [|reflexivity].
  cbn [bind]. apply IH.
Qed.
End Symmetry.

(** The outcome of a pair of registered users, from its parts. *)
Lemma compat_registered (self : DatingMatchmaker) (x y : Z) (u1 u2 : User) :
  registered self x u1 -> registered self y u2 ->
  compat self x y
  = (dealbreakers <- _check_dealbreakers self u1 u2 ;;
     match dealbreakers with
     | _ :: _ => Ok (0%Z, Vetoed dealbreakers)
     | [] =>
         passes <- _check_preferences self u1 u2 ;;
         if negb passes then Ok (0%Z, Mismatch "preference_mismatch")
         else
           sim <- _calculate_similarity self u1 u2 ;;
           comp <- _calculate_complementarity self u1 u2 ;;
           total_score <-
             total_score_of (questions_config self)
               (weight_of similarity (questions_config self) * sim
                + weight_of complementary (questions_config self) * comp)%float
               (py_sum (map weight (dict_values (questions_config self)))) ;;
           percentage <- round (total_score * 100)%float ;;
           sim_pct <- round (sim * 100)%float ;;
           comp_pct <- round (comp * 100)%float ;;
           category_scores <- _calculate_category_scores self u1 u2 ;;
           Ok (percentage,
               Matched percentage sim_pct comp_pct category_scores)
     end).
Proof.
  intros Hx Hy.
  unfold compat, calculate_compatibility, mbind, get_self, lift_result,
    dict_in.
  unfold registered in Hx, Hy. cbn [fst]. now rewrite Hx, Hy.
Qed.

Lemma compat_vetoed (self : DatingMatchmaker) (x y : Z) (u1 u2 : User)
    (s : Z) (V : list Z) :
  registered self x u1 -> registered self y u2 ->
  (compat self x y = Ok (s, Vetoed V)
   <-> s = 0%Z /\ V <> [] /\ _check_dealbreakers self u1 u2 = Ok V).
Proof.
  intros Hx Hy. rewrite (compat_registered self x y u1 u2 Hx Hy).
  destruct (_check_dealbreakers self u1 u2) as [[|d ds]|e]; cbn [bind].
  - split; [|intros [_ [H1 H2]]; inversion H2; subst; contradiction].
    destruct (_check_preferences self u1 u2) as [[|]|]; cbn [bind negb];
      try discriminate.
    destruct (_calculate_similarity self u1 u2); cbn [bind];
      [|discriminate].
    destruct (_calculate_complementarity self u1 u2); cbn [bind];
      [|discriminate].
    destruct (total_score_of _ _ _); cbn [bind]; [|discriminate].
    destruct (round _); cbn [bind]; [|discriminate].
    destruct (round _); cbn [bind]; [|discriminate].
    destruct (round _); cbn [bind]; [|discriminate].
    destruct (_calculate_category_scores self u1 u2); cbn [bind];
      discriminate.
  - split.
    + intros H; inversion H; subst. repeat split. discriminate.
    + intros [-> [_ H]]. now inversion H.
  - split; [discriminate|intros [_ [_ H]]; discriminate].
Qed.

Lemma compat_mismatch (self : DatingMatchmaker) (x y : Z) (u1 u2 : User)
    (s : Z) (reason : string) :
  registered self x u1 -> registered self y u2 ->
  (compat self x y = Ok (s, Mismatch reason)
   <-> s = 0%Z /\ reason = "preference_mismatch"%string
       /\ _check_dealbreakers self u1 u2 = Ok []
       /\ _check_preferences self u1 u2 = Ok false).
Proof.
  intros Hx Hy. rewrite (compat_registered self x y u1 u2 Hx Hy).
  destruct (_check_dealbreakers self u1 u2) as [[|d ds]|e]; cbn [bind].
  - destruct (_check_preferences self u1 u2) as [[|]|]; cbn [bind negb].
    + split; [|intros [_ [_ [_ H]]]; discriminate].
      destruct (_calculate_similarity self u1 u2); cbn [bind];
        [|discriminate].
      destruct (_calculate_complementarity self u1 u2); cbn [bind];
        [|discriminate].
      destruct (total_score_of _ _ _); cbn [bind]; [|discriminate].
      destruct (round _); cbn [bind]; [|discriminate].
      destruct (round _); cbn [bind]; [|discriminate].
      destruct (round _); cbn [bind]; [|discriminate].
      destruct (_calculate_category_scores self u1 u2); cbn [bind];
        discriminate.
    + split.
      * intros H; inversion H; subst. repeat split.
      * intros [-> [-> _]]. reflexivity.
    + split; [discriminate|intros [_ [_ [_ H]]]; discriminate].
  - split; [discriminate|intros [_ [_ [H _]]]; discriminate].
  - split; [discriminate|intros [_ [_ [H _]]]; discriminate].
Qed.

Lemma compat_matched (self : DatingMatchmaker) (x y : Z) (u1 u2 : User)
    (s o sp cp : Z) (cats : list (string * Z)) :
  registered self x u1 -> registered self y u2 ->
  compat self x y = Ok (s, Matched o sp cp cats) ->
  exists comp,
    _calculate_complementarity self u1 u2 = Ok comp
    /\ round (comp * 100)%float = Ok cp
    /\ _calculate_category_scores self u1 u2 = Ok cats.
Proof.
  intros Hx Hy. rewrite (compat_registered self x y u1 u2 Hx Hy).
  destruct (_check_dealbreakers self u1 u2) as [[|d ds]|e]; cbn [bind];
    try discriminate.
  destruct (_check_preferences self u1 u2) as [[|]|]; cbn [bind negb];
    try discriminate.
  destruct (_calculate_similarity self u1 u2); cbn [bind]; [|discriminate].
  destruct (_calculate_complementarity self u1 u2) as [comp|]; cbn [bind];
    [|discriminate].
  destruct (total_score_of _ _ _); cbn [bind]; [|discriminate].
  destruct (round _); cbn [bind]; [|discriminate].
  destruct (round _); cbn [bind]; [|discriminate].
  destruct (round (comp * 100)) as [cp'|] eqn:Hcp; cbn [bind];
    [|discriminate].
  destruct (_calculate_category_scores self u1 u2) as [cats'|]; cbn [bind];
    [|discriminate].
  intros H; inversion H; subst. exists comp. auto.
Qed.

(** X17.  What of a compatibility query does not depend on the order
    of the two users, for registered users whose stated distance bounds
    are numbers: the dealbreaker check, the preference check, the
    complementary score and the category scores are the same in both
    orders, bit for bit and failure for failure; so a pair is vetoed in
    one order exactly when it is in the other, with the same list, it is
    a preference mismatch in one order exactly when it is in the other,
    and two matched breakdowns carry the same [complementary_score] and
    the same [category_scores].  The weighted similarity is the one part
    that reads the two answer vectors differently. *)
Theorem calculate_compatibility_symmetric_parts (self : DatingMatchmaker)
    (x y : Z) (u1 u2 : User) :
  registered self x u1 -> registered self y u2 ->
  bound_is_number (preferences u1) -> bound_is_number (preferences u2) ->
  _check_dealbreakers self u1 u2 = _check_dealbreakers self u2 u1
  /\ _check_preferences self u1 u2 = _check_preferences self u2 u1
  /\ _calculate_complementarity self u1 u2
     = _calculate_complementarity self u2 u1
  /\ _calculate_category_scores self u1 u2
     = _calculate_category_scores self u2 u1
  /\ (forall s V,
        fst (calculate_compatibility x y self) = Ok (s, Vetoed V)
        <-> fst (calculate_compatibility y x self) = Ok (s, Vetoed V))
  /\ (forall s reason,
        fst (calculate_compatibility x y self) = Ok (s, Mismatch reason)
        <-> fst (calculate_compatibility y x self) = Ok (s, Mismatch reason))
  /\ (forall s o sp cp cats s' o' sp' cp' cats',
        fst (calculate_compatibility x y self)
        = Ok (s, Matched o sp cp cats) ->
        fst (calculate_compatibility y x self)
        = Ok (s', Matched o' sp' cp' cats') ->
        cp = cp' /\ cats = cats').
Proof.
  intros Hx Hy Hn1 Hn2.
  pose proof (_check_dealbreakers_sym self u1 u2) as Hd.
  pose proof (_check_preferences_sym self u1 u2 Hn1 Hn2) as Hp.
  pose proof (_calculate_complementarity_sym self u1 u2) as Hc.
  assert (Hk : _calculate_category_scores self u1 u2
               = _calculate_category_scores self u2 u1)
    by apply category_loop_sym.
  repeat (split; [assumption|]). split; [|split].
  - intros s V. fold (compat self x y) (compat self y x).
    rewrite (compat_vetoed self x y u1 u2 s V Hx Hy),
            (compat_vetoed self y x u2 u1 s V Hy Hx), Hd.
    reflexivity.
  - intros s reason. fold (compat self x y) (compat self y x).
    rewrite (compat_mismatch self x y u1 u2 s reason Hx Hy),
            (compat_mismatch self y x u2 u1 s reason Hy Hx), Hd, Hp.
    reflexivity.
  - intros s o sp cp cats s' o' sp' cp' cats' H1 H2.
    apply (compat_matched self x y u1 u2 _ _ _ _ _ Hx Hy) in H1.
    apply (compat_matched self y x u2 u1 _ _ _ _ _ Hy Hx) in H2.
    destruct H1 as [c1 [E1 [R1 K1]]]. destruct H2 as [c2 [E2 [R2 K2]]].
    rewrite Hc, E2 in E1. inversion E1; subst c2.
    rewrite Hk, K2 in K1. inversion K1; subst.
    rewrite R2 in R1. inversion R1. auto.
Qed.

(** X17 on the two users whose score depends on their order. *)
Lemma calculate_compatibility_symmetric_parts_witness :
  calculate_compatibility 1 2 uneven
  = (Ok (14%Z, Matched 14 100 100 all_hundred), uneven)
  /\ calculate_compatibility 2 1 uneven
     = (Ok (13%Z, Matched 13 100 100 all_hundred), uneven)
  /\ _calculate_complementarity uneven (plain low_first) (plain high_first)
     = _calculate_complementarity uneven (plain high_first) (plain low_first).
Proof.
  split; [vm_compute; reflexivity|split; [vm_compute; reflexivity|]].
  exact (proj1 (proj2 (proj2
           (calculate_compatibility_symmetric_parts uneven 1 2
              (plain low_first) (plain high_first)
              eq_refl eq_refl I I)))).
Defined.
